(** * koh cleanup: the worktree teardown orchestrator

    A shallow embedding of [cmd/cleanup.go] of bshakr/koh ([runCleanup] and
    [extractWorkTreeName]) and the properties of its call order.

    The command talks to four packages of the repository (git, tmux,
    validation, signals) and to the Go runtime ([os], [path/filepath],
    [fmt]).  The collaborators are an interface over a world state; the
    lexical path functions of [path/filepath] are the Unix ones, written
    out; every call the command makes is recorded, in order, in a trace. *)

From Stdlib Require Import String Ascii List Bool Arith Lia.
Import ListNotations.
Open Scope string_scope.

(** ** Go values *)

(** A Go [error].  [PathErrNotExist] is what [os] returns for a missing file
    (a [*fs.PathError] over [ENOENT]); [ErrMsg] any other error with its
    message, [fmt.Errorf] without a verb included; [ErrWrap pre e] is
    [fmt.Errorf(pre + "%w", e)]. *)
Inductive error : Type :=
| PathErrNotExist (msg : string)
| ErrMsg (msg : string)
| ErrWrap (pre : string) (cause : error).

Fixpoint Error (e : error) : string :=
  match e with
  | PathErrNotExist msg => msg
  | ErrMsg msg => msg
  | ErrWrap pre cause => pre ++ Error cause
  end.

(** [os.IsNotExist]: looks under [PathError], not under [%w] wrappers;
    [nil] is not a not-exist error. *)
Definition os_IsNotExist (err : option error) : bool :=
  match err with
  | Some (PathErrNotExist _) => true
  | _ => false
  end.

(** A Go pair [(value, error)] of which the caller reads the value only when
    the error is [nil]. *)
Inductive result (A : Type) : Type :=
| Ok (a : A)
| Err (e : error).
Arguments Ok {A} a.
Arguments Err {A} e.

Definition nl : string := String (ascii_of_nat 10) EmptyString.

(** [context.Context] as handed out by [signals.SetupCancellableContext]. *)
Definition Context := nat.

(** ** [path/filepath] and [strings] on Unix *)

Module filepath.

Definition slash : ascii := "/"%char.

(** [strings.Split(s, "/")] *)
Fixpoint splitSlash (s : string) : list string :=
  match s with
  | EmptyString => [""]
  | String c s' =>
      if Ascii.eqb c slash then "" :: splitSlash s'
      else match splitSlash s' with
           | [] => [String c ""]
           | h :: t => String c h :: t
           end
  end.

(** [strings.Join(l, "/")] *)
Fixpoint joinSlash (l : list string) : string :=
  match l with
  | [] => ""
  | [x] => x
  | x :: rest => x ++ "/" ++ joinSlash rest
  end.

(** [strings.HasPrefix(s, p)] *)
Definition HasPrefix (s p : string) : bool := String.prefix p s.

Definition IsAbs (path : string) : bool := HasPrefix path "/".

(** One element of [Clean]'s scan; [out] is the output so far, last
    element first. *)
Definition cleanStep (rooted : bool) (out : list string) (seg : string)
  : list string :=
  if String.eqb seg "" then out
  else if String.eqb seg "." then out
  else if String.eqb seg ".." then
    match out with
    | top :: below =>
        if String.eqb top ".." then seg :: out else below
    | [] => if rooted then [] else [seg]
    end
  else seg :: out.

Definition Clean (path : string) : string :=
  if String.eqb path "" then "."
  else
    let rooted := IsAbs path in
    let out := rev (fold_left (cleanStep rooted) (splitSlash path) []) in
    if rooted then "/" ++ joinSlash out
    else if String.eqb (joinSlash out) "" then "." else joinSlash out.

Fixpoint dropEmpty (elem : list string) : list string :=
  match elem with
  | [] => []
  | e :: rest => if String.eqb e "" then dropEmpty rest else elem
  end.

Definition Join (elem : list string) : string :=
  match dropEmpty elem with
  | [] => ""
  | l => Clean (joinSlash l)
  end.

Fixpoint stripTrailingEmpty (l : list string) : list string :=
  match l with
  | [] => []
  | x :: rest =>
      match stripTrailingEmpty rest with
      | [] => if String.eqb x "" then [] else [x]
      | rest' => x :: rest'
      end
  end.

Definition Base (path : string) : string :=
  if String.eqb path "" then "."
  else match stripTrailingEmpty (splitSlash path) with
       | [] => "/"
       | l => last l ""
       end.

(** The elements of a cleaned path, the leading separator apart. *)
Definition elements (p : string) : list string :=
  match p with
  | EmptyString => []
  | String c rest =>
      if Ascii.eqb c slash
      then (if String.eqb rest "" then [] else splitSlash rest)
      else splitSlash p
  end.

(** What is left of [base] and of [targ] after their common leading
    elements. *)
Fixpoint dropCommon (base targ : list string) : list string * list string :=
  match base, targ with
  | b :: base', t :: targ' =>
      if String.eqb b t then dropCommon base' targ' else (base, targ)
  | _, _ => (base, targ)
  end.

Definition relError (basepath targpath : string) : error :=
  ErrMsg ("Rel: can't make " ++ targpath ++ " relative to " ++ basepath).

Definition Rel (basepath targpath : string) : result string :=
  let base := Clean basepath in
  let targ := Clean targpath in
  if String.eqb targ base then Ok "."
  else
    let base := if String.eqb base "." then "" else base in
    if negb (Bool.eqb (IsAbs base) (IsAbs targ))
    then Err (relError basepath targpath)
    else
      match dropCommon (elements base) (elements targ) with
      | ((b :: _) as bs, (_ :: _) as ts) =>
          if String.eqb b ".." then Err (relError basepath targpath)
          else Ok (joinSlash (map (fun _ => "..") bs ++ ts))
      | ((_ :: _) as bs, []) => Ok (joinSlash (map (fun _ => "..") bs))
      | ([], ts) => Ok (joinSlash ts)
      end.

End filepath.


(** ** The collaborators

    What [runCleanup] calls outside its own file, over a world state [W]:
    each operation returns its Go result and the world after the call. *)
Class Collaborators (W : Type) : Type := {
  (** [runtime.GOOS] *)
  runtime_GOOS : W -> string;
  (** [git.IsInWorktree()] *)
  git_IsInWorktree : W -> bool * W;
  (** [git.GetCurrentWorktreePath()] *)
  git_GetCurrentWorktreePath : W -> result string * W;
  (** [git.GetMainRepoRoot()] *)
  git_GetMainRepoRoot : W -> result string * W;
  (** [git.GetRepoName()] *)
  git_GetRepoName : W -> result string * W;
  (** [git.RemoveWorktreeWithContext(ctx, path)] *)
  git_RemoveWorktreeWithContext : Context -> string -> W -> option error * W;
  (** [validation.ValidateWorktreeName(name)] *)
  validation_ValidateWorktreeName : string -> W -> option error * W;
  (** [signals.SetupCancellableContext()]; the second value it returns is
      the release function, [signals_cleanup] at that context. *)
  signals_SetupCancellableContext : W -> Context * W;
  signals_cleanup : Context -> W -> W;
  (** [tmux.IsInTmux()] *)
  tmux_IsInTmux : W -> bool * W;
  (** [tmux.CloseWindow(windowName, worktreeName)] *)
  tmux_CloseWindow : string -> string -> W -> option error * W;
  (** [os.Stat(path)], the [FileInfo] left out: the command drops it. *)
  os_Stat : string -> W -> option error * W;
  (** [os.Getwd()] *)
  os_Getwd : W -> result string * W;
  (** [os.Chdir(dir)] *)
  os_Chdir : string -> W -> option error * W;
  (** [os.RemoveAll(path)] *)
  os_RemoveAll : string -> W -> option error * W
}.

(** ** The trace

    One event per call [runCleanup] and [extractWorkTreeName] make into
    another package, with its arguments and what came back, and one per
    line written to standard output.  The value-level helpers
    ([fmt.Errorf], [fmt.Sprintf], [strings.HasPrefix], [os.IsNotExist],
    [len]) leave no event. *)
Inductive Event : Type :=
| Stdout (text : string)
| Call_IsInWorktree (r : bool)
| Call_GetCurrentWorktreePath (r : result string)
| Call_Base (path : string) (r : string)
| Call_ValidateWorktreeName (name : string) (r : option error)
| Call_SetupCancellableContext (ctx : Context)
| Call_cleanup (ctx : Context)
| Call_GetMainRepoRoot (r : result string)
| Call_Join (elem : list string) (r : string)
| Call_Stat (path : string) (r : option error)
| Call_Getwd (r : result string)
| Call_Abs (path : string) (r : result string)
| Call_Rel (basepath targpath : string) (r : result string)
| Call_Chdir (dir : string) (r : option error)
| Call_RemoveWorktreeWithContext (ctx : Context) (path : string) (r : option error)
| Call_RemoveAll (path : string) (r : option error)
| Call_IsInTmux (r : bool)
| Call_GetRepoName (r : result string)
| Call_CloseWindow (windowName worktreeName : string) (r : option error).

Abbreviation Trace := (list Event).

(** ** Running Go code: world, trace and early return *)

Section Command.

Context {W : Type} {C : Collaborators W}.

(** A piece of a Go function body: from a world to the value it computes
    ([Ok]) or the error the function returns with ([Err]), the world it
    leaves and the calls it made. *)
Definition M (A : Type) : Type := W -> result A * W * Trace.

Definition ret {A : Type} (a : A) : M A := fun w => (Ok a, w, []).

(** [return ..., err] *)
Definition fail {A : Type} (e : error) : M A := fun w => (Err e, w, []).

Definition bind {A B : Type} (m : M A) (k : A -> M B) : M B :=
  fun w =>
    match m w with
    | (Ok a, w1, t1) =>
        match k a w1 with
        | (r, w2, t2) => (r, w2, (t1 ++ t2)%list)
        end
    | (Err e, w1, t1) => (Err e, w1, t1)
    end.

Notation "x <- m ;; k" := (bind m (fun x => k))
  (at level 61, m at next level, right associativity).
Notation "m ;;; k" := (bind m (fun _ => k))
  (at level 61, right associativity).

(** A call of a collaborator, recorded with its result. *)
Definition call {A : Type} (op : W -> A * W) (ev : A -> Event) : M A :=
  fun w => match op w with (a, w1) => (Ok a, w1, [ev a]) end.

(** A call of a function that reads no state, recorded with its result. *)
Definition pure_call {A : Type} (a : A) (ev : A -> Event) : M A :=
  fun w => (Ok a, w, [ev a]).

(** [fmt.Printf] with the format already applied. *)
Definition Printf (text : string) : M unit :=
  fun w => (Ok tt, w, [Stdout text]).

(** [fmt.Println] *)
Definition Println (text : string) : M unit := Printf (text ++ nl).

(** [defer release()] over the rest of the function body: [release] runs
    when the body has returned, with a value or with an error. *)
Definition defer {A : Type} (release : W -> W) (ev : Event) (body : M A) : M A :=
  fun w => match body w with (r, w1, t1) => (r, release w1, (t1 ++ [ev])%list) end.

(** A callee's error return, wrapped by the caller:
    [if err != nil { return fmt.Errorf(pre + "%w", err) }]. *)
Definition wrapping {A : Type} (pre : string) (m : M A) : M A :=
  fun w =>
    match m w with
    | (Err e, w1, t1) => (Err (ErrWrap pre e), w1, t1)
    | ok => ok
    end.

(** [filepath.Abs] on Unix: an absolute path is cleaned, a relative one is
    joined to [os.Getwd()]. *)
Definition filepath_Abs (path : string) (w : W) : result string * W :=
  if filepath.IsAbs path then (Ok (filepath.Clean path), w)
  else match os_Getwd w with
       | (Ok wd, w1) => (Ok (filepath.Join [wd; path]), w1)
       | (Err err, w1) => (Err err, w1)
       end.

(** ** cmd/cleanup.go *)

Definition extractWorkTreeName : M string :=
  inWorktree <- call git_IsInWorktree Call_IsInWorktree ;;
  if negb inWorktree then fail (ErrMsg "not in a worktree")
  else
    r <- call git_GetCurrentWorktreePath Call_GetCurrentWorktreePath ;;
    match r with
    | Err err => fail (ErrWrap "failed to get current worktree path: " err)
    | Ok currentPath =>
        pure_call (filepath.Base currentPath) (Call_Base currentPath)
    end.

(** Lines 51-63: the name from the argument, or from the current worktree. *)
Definition resolveWorktreeName (args : list string) : M string :=
  match args with
  | [] =>
      worktreeName <- wrapping "failed to extract worktree name: "
                               extractWorkTreeName ;;
      Printf ("Detected current worktree: " ++ worktreeName ++ nl) ;;;
      ret worktreeName
  | arg0 :: _ => ret arg0
  end.

(** Lines 83-89: the existence probe. *)
Definition probeWorktree (worktreePath worktreeName : string) : M bool :=
  err <- call (os_Stat worktreePath) (Call_Stat worktreePath) ;;
  if os_IsNotExist err then
    Printf ("Warning: Worktree .koh/" ++ worktreeName ++ " not found" ++ nl) ;;;
    Println "Will attempt to clean up tmux window only" ;;;
    ret false
  else ret true.

(** Line 109 *)
Definition isInTargetWorktree (rel : result string) : bool :=
  match rel with
  | Ok rel => negb (filepath.HasPrefix rel "..")
  | Err _ => false
  end.

(** Lines 91-118: where the process stands, and Step 1. *)
Definition leaveTargetWorktree (mainRepoRoot worktreePath : string) : M unit :=
  r <- call os_Getwd Call_Getwd ;;
  match r with
  | Err err => fail (ErrWrap "failed to get current directory: " err)
  | Ok currentDir =>
  r <- call (filepath_Abs currentDir) (Call_Abs currentDir) ;;
  match r with
  | Err err => fail (ErrWrap "failed to get absolute path: " err)
  | Ok currentPath =>
  r <- call (filepath_Abs worktreePath) (Call_Abs worktreePath) ;;
  match r with
  | Err err => fail (ErrWrap "failed to get absolute worktree path: " err)
  | Ok absWorktreePath =>
  rel <- pure_call (filepath.Rel absWorktreePath currentPath)
                   (Call_Rel absWorktreePath currentPath) ;;
  if isInTargetWorktree rel then
    Println "Running from within target worktree, switching to parent repository..." ;;;
    err <- call (os_Chdir mainRepoRoot) (Call_Chdir mainRepoRoot) ;;
    match err with
    | Some err => fail (ErrWrap "failed to change to parent directory: " err)
    | None => Printf ("Changed directory to: " ++ mainRepoRoot ++ nl)
    end
  else ret tt
  end end end.

(** Lines 120-133, Step 2: remove the git worktree. *)
Definition removeWorktree (ctx : Context) (worktreeExists : bool)
                          (worktreePath worktreeName : string) : M unit :=
  if worktreeExists then
    Printf ("Removing git worktree: .koh/" ++ worktreeName ++ nl) ;;;
    err <- call (git_RemoveWorktreeWithContext ctx worktreePath)
                (Call_RemoveWorktreeWithContext ctx worktreePath) ;;
    match err with
    | Some err => Printf ("Warning: Failed to remove worktree: " ++ Error err ++ nl)
    | None => Println "Worktree removed successfully"
    end ;;;
    err <- call (os_RemoveAll worktreePath) (Call_RemoveAll worktreePath) ;;
    match err with
    | Some err =>
        Printf ("Warning: Failed to remove worktree directory: " ++ Error err ++ nl)
    | None => ret tt
    end
  else ret tt.

(** Lines 135-151, Step 3: close the tmux window. *)
Definition closeTmuxWindow (worktreeName : string) : M unit :=
  inTmux <- call tmux_IsInTmux Call_IsInTmux ;;
  if inTmux then
    r <- call git_GetRepoName Call_GetRepoName ;;
    repoName <- match r with
                | Err err =>
                    Printf ("Warning: Failed to get repository name: "
                            ++ Error err ++ nl) ;;;
                    ret ""
                | Ok repoName => ret repoName
                end ;;
    let windowName := repoName ++ "|" ++ worktreeName in
    err <- call (tmux_CloseWindow windowName worktreeName)
                (Call_CloseWindow windowName worktreeName) ;;
    match err with
    | Some err => Printf ("Warning: " ++ Error err ++ nl)
    | None => Println "Tmux window closed (switched to previous window)"
    end
  else Println "Not in a tmux session, skipping tmux cleanup".

(** Lines 74-154: the body under [defer cleanup()]. *)
Definition cleanupWorktree (ctx : Context) (worktreeName : string) : M unit :=
  r <- call git_GetMainRepoRoot Call_GetMainRepoRoot ;;
  match r with
  | Err err => fail (ErrWrap "failed to get main repository root: " err)
  | Ok mainRepoRoot =>
      worktreePath <- pure_call (filepath.Join [mainRepoRoot; ".koh"; worktreeName])
                                (Call_Join [mainRepoRoot; ".koh"; worktreeName]) ;;
      worktreeExists <- probeWorktree worktreePath worktreeName ;;
      leaveTargetWorktree mainRepoRoot worktreePath ;;;
      removeWorktree ctx worktreeExists worktreePath worktreeName ;;;
      closeTmuxWindow worktreeName ;;;
      Println "Cleanup complete!"
  end.

Definition runCleanupM (args : list string) : M unit :=
  fun w =>
    if String.eqb (runtime_GOOS w) "windows"
    then fail (ErrMsg "cleanup command is not supported on Windows") w
    else
      (worktreeName <- resolveWorktreeName args ;;
       err <- call (validation_ValidateWorktreeName worktreeName)
                   (Call_ValidateWorktreeName worktreeName) ;;
       match err with
       | Some err => fail (ErrWrap "invalid worktree name: " err)
       | None =>
           ctx <- call signals_SetupCancellableContext
                       Call_SetupCancellableContext ;;
           defer (signals_cleanup ctx) (Call_cleanup ctx)
                 (cleanupWorktree ctx worktreeName)
       end) w.

(** The error [runCleanup] returns ([None] is [nil]), the world it leaves and
    its trace. *)
Definition runCleanup (args : list string) (w : W) : option error * W * Trace :=
  match runCleanupM args w with
  | (Ok _, w1, t) => (None, w1, t)
  | (Err err, w1, t) => (Some err, w1, t)
  end.

End Command.

(** ** Reading a run *)

Definition error_of {W : Type} (run : option error * W * Trace) : option error :=
  fst (fst run).
Definition world_of {W : Type} (run : option error * W * Trace) : W :=
  snd (fst run).
Definition trace_of {W : Type} (run : option error * W * Trace) : Trace :=
  snd run.

(** The two removal calls: [git worktree remove] and [os.RemoveAll]. *)
Definition is_removal (ev : Event) : bool :=
  match ev with
  | Call_RemoveWorktreeWithContext _ _ _ => true
  | Call_RemoveAll _ _ => true
  | _ => false
  end.

(** [e1] is in the trace, and [e2] is the very next event. *)
Definition next_to (e1 e2 : Event) (t : Trace) : Prop :=
  exists pre post, t = (pre ++ e1 :: e2 :: post)%list.

(** [e1] is in the trace before an occurrence of [e2]. *)
Definition precedes (e1 e2 : Event) (t : Trace) : Prop :=
  exists pre post, t = (pre ++ e2 :: post)%list /\ In e1 pre.

(** A run reaches the teardown steps (lines 120-154) when it gets to line
    136: [tmux.IsInTmux] is called on every path through these lines, since
    nothing in them returns early, and nowhere else. *)
Definition reaches_teardown (t : Trace) : Prop :=
  exists inTmux, In (Call_IsInTmux inTmux) t.

(** A run enters the teardown steps when it gets to line 120, before
    anything is removed: it has computed the relative path of line 108, and
    [os.Chdir] (line 112), the one call between line 108 and line 120 whose
    failure returns, has not failed. *)
Definition enters_teardown (t : Trace) : Prop :=
  (exists basepath targpath rel, In (Call_Rel basepath targpath rel) t) /\
  (forall dir err, ~ In (Call_Chdir dir (Some err)) t).

(** The relative path begins with the parent-escape marker, or could not be
    computed: what line 109 takes for "not inside". *)
Definition parent_escape (rel : result string) : Prop :=
  match rel with
  | Ok rel => filepath.HasPrefix rel ".." = true
  | Err _ => True
  end.

(** [cwd] is [target] or lies under it, for cleaned absolute paths. *)
Definition nested_under (target cwd : string) : bool :=
  String.eqb cwd target || String.prefix (target ++ "/") cwd.

(** A path element as it stands in a cleaned path: not empty, neither [.]
    nor [..], and without a separator. *)
Definition plain (seg : string) : Prop :=
  seg <> "" /\ seg <> "." /\ seg <> ".." /\ filepath.splitSlash seg = [seg].

(** The absolute path with these elements. *)
Definition rooted (segs : list string) : string :=
  "/" ++ filepath.joinSlash segs.

(** [cwd] is neither [target] nor under it: the elements of [target] are not
    the leading elements of [cwd]. *)
Definition outside_of (target cwd : string) : Prop :=
  exists ts cs,
    Forall plain ts /\ Forall plain cs /\
    target = rooted ts /\ cwd = rooted cs /\
    forall rest, cs <> (ts ++ rest)%list.

(** [cwd] is [target] or lies under it, and the first element below [target],
    if there is one, does not begin with two dots. *)
Definition plainly_under (target cwd : string) : Prop :=
  exists ts rest,
    Forall plain ts /\ Forall plain rest /\
    target = rooted ts /\ cwd = rooted (ts ++ rest) /\
    match rest with
    | [] => True
    | r :: _ => filepath.HasPrefix r ".." = false
    end.

(** Reading the trace from its start, no removal call comes before a first
    event with [P]. *)
Inductive removal_waits_for (P : Event -> Prop) : Trace -> Prop :=
| waits_nil : removal_waits_for P []
| waits_done (ev : Event) (rest : Trace) :
    P ev -> removal_waits_for P (ev :: rest)
| waits_on (ev : Event) (rest : Trace) :
    is_removal ev = false ->
    removal_waits_for P rest ->
    removal_waits_for P (ev :: rest).

(** ** The shape of the traces

    What each block of [runCleanup] can leave in the trace, by exit. *)

(** Lines 51-63. *)
Inductive resolved : list string -> result string -> Trace -> Prop :=
| resolved_arg (arg0 : string) (rest : list string) :
    resolved (arg0 :: rest) (Ok arg0) []
| resolved_outside :
    resolved []
      (Err (ErrWrap "failed to extract worktree name: "
                     (ErrMsg "not in a worktree")))
      [Call_IsInWorktree false]
| resolved_nopath (err : error) :
    resolved []
      (Err (ErrWrap "failed to extract worktree name: "
                     (ErrWrap "failed to get current worktree path: " err)))
      [Call_IsInWorktree true; Call_GetCurrentWorktreePath (Err err)]
| resolved_current (currentPath : string) :
    resolved []
      (Ok (filepath.Base currentPath))
      [Call_IsInWorktree true;
       Call_GetCurrentWorktreePath (Ok currentPath);
       Call_Base currentPath (filepath.Base currentPath);
       Stdout ("Detected current worktree: " ++ filepath.Base currentPath ++ nl)].

(** Lines 83-89. *)
Definition probe_events (worktreePath worktreeName : string)
                        (err : option error) : Trace :=
  Call_Stat worktreePath err ::
  (if os_IsNotExist err
   then [Stdout ("Warning: Worktree .koh/" ++ worktreeName ++ " not found" ++ nl);
         Stdout ("Will attempt to clean up tmux window only" ++ nl)]
   else []).

(** Lines 91-118. *)
Inductive relocated (mainRepoRoot worktreePath : string)
  : result unit -> Trace -> Prop :=
| relocated_nowd (err : error) :
    relocated mainRepoRoot worktreePath
      (Err (ErrWrap "failed to get current directory: " err))
      [Call_Getwd (Err err)]
| relocated_noabs (currentDir : string) (err : error) :
    relocated mainRepoRoot worktreePath
      (Err (ErrWrap "failed to get absolute path: " err))
      [Call_Getwd (Ok currentDir); Call_Abs currentDir (Err err)]
| relocated_noabs_worktree (currentDir currentPath : string) (err : error) :
    relocated mainRepoRoot worktreePath
      (Err (ErrWrap "failed to get absolute worktree path: " err))
      [Call_Getwd (Ok currentDir); Call_Abs currentDir (Ok currentPath);
       Call_Abs worktreePath (Err err)]
| relocated_stay (currentDir currentPath absWorktreePath : string) :
    isInTargetWorktree (filepath.Rel absWorktreePath currentPath) = false ->
    relocated mainRepoRoot worktreePath (Ok tt)
      [Call_Getwd (Ok currentDir); Call_Abs currentDir (Ok currentPath);
       Call_Abs worktreePath (Ok absWorktreePath);
       Call_Rel absWorktreePath currentPath
                (filepath.Rel absWorktreePath currentPath)]
| relocated_stuck (currentDir currentPath absWorktreePath : string) (err : error) :
    isInTargetWorktree (filepath.Rel absWorktreePath currentPath) = true ->
    relocated mainRepoRoot worktreePath
      (Err (ErrWrap "failed to change to parent directory: " err))
      [Call_Getwd (Ok currentDir); Call_Abs currentDir (Ok currentPath);
       Call_Abs worktreePath (Ok absWorktreePath);
       Call_Rel absWorktreePath currentPath
                (filepath.Rel absWorktreePath currentPath);
       Stdout ("Running from within target worktree, switching to parent repository..." ++ nl);
       Call_Chdir mainRepoRoot (Some err)]
| relocated_moved (currentDir currentPath absWorktreePath : string) :
    isInTargetWorktree (filepath.Rel absWorktreePath currentPath) = true ->
    relocated mainRepoRoot worktreePath (Ok tt)
      [Call_Getwd (Ok currentDir); Call_Abs currentDir (Ok currentPath);
       Call_Abs worktreePath (Ok absWorktreePath);
       Call_Rel absWorktreePath currentPath
                (filepath.Rel absWorktreePath currentPath);
       Stdout ("Running from within target worktree, switching to parent repository..." ++ nl);
       Call_Chdir mainRepoRoot None;
       Stdout ("Changed directory to: " ++ mainRepoRoot ++ nl)].

(** Lines 120-133, given what the two removal calls returned. *)
Definition removal_events (ctx : Context) (worktreeExists : bool)
                          (worktreePath worktreeName : string)
                          (gitErr rmErr : option error) : Trace :=
  if worktreeExists then
    [Stdout ("Removing git worktree: .koh/" ++ worktreeName ++ nl);
     Call_RemoveWorktreeWithContext ctx worktreePath gitErr;
     Stdout (match gitErr with
             | Some err => "Warning: Failed to remove worktree: " ++ Error err ++ nl
             | None => "Worktree removed successfully" ++ nl
             end);
     Call_RemoveAll worktreePath rmErr] ++
    match rmErr with
    | Some err =>
        [Stdout ("Warning: Failed to remove worktree directory: " ++ Error err ++ nl)]
    | None => []
    end
  else [].

(** Line 143, with the empty name of line 140 when the lookup failed. *)
Definition windowName_of (repoName : result string) (worktreeName : string) : string :=
  match repoName with
  | Ok repoName => repoName ++ "|" ++ worktreeName
  | Err _ => "" ++ "|" ++ worktreeName
  end.

(** Lines 135-151. *)
Inductive window_step (worktreeName : string) : Trace -> Prop :=
| window_no_session :
    window_step worktreeName
      [Call_IsInTmux false;
       Stdout ("Not in a tmux session, skipping tmux cleanup" ++ nl)]
| window_close (repoName : result string) (err : option error) :
    window_step worktreeName
      ([Call_IsInTmux true; Call_GetRepoName repoName] ++
       match repoName with
       | Err e => [Stdout ("Warning: Failed to get repository name: " ++ Error e ++ nl)]
       | Ok _ => []
       end ++
       [Call_CloseWindow (windowName_of repoName worktreeName) worktreeName err;
        Stdout (match err with
                | Some e => "Warning: " ++ Error e ++ nl
                | None => "Tmux window closed (switched to previous window)" ++ nl
                end)]).

(** Lines 74-154, under the deferred release. *)
Inductive cleanup_body (ctx : Context) (worktreeName : string)
  : result unit -> Trace -> Prop :=
| body_noroot (err : error) :
    cleanup_body ctx worktreeName
      (Err (ErrWrap "failed to get main repository root: " err))
      [Call_GetMainRepoRoot (Err err)]
| body_stranded (mainRepoRoot : string) (statErr : option error)
                (err : error) (t' : Trace) :
    relocated mainRepoRoot (filepath.Join [mainRepoRoot; ".koh"; worktreeName])
              (Err err) t' ->
    cleanup_body ctx worktreeName (Err err)
      ([Call_GetMainRepoRoot (Ok mainRepoRoot);
        Call_Join [mainRepoRoot; ".koh"; worktreeName]
                  (filepath.Join [mainRepoRoot; ".koh"; worktreeName])]
       ++ probe_events (filepath.Join [mainRepoRoot; ".koh"; worktreeName])
                       worktreeName statErr
       ++ t')
| body_done (mainRepoRoot : string) (statErr gitErr rmErr : option error)
            (t' t'' : Trace) :
    relocated mainRepoRoot (filepath.Join [mainRepoRoot; ".koh"; worktreeName])
              (Ok tt) t' ->
    window_step worktreeName t'' ->
    cleanup_body ctx worktreeName (Ok tt)
      ([Call_GetMainRepoRoot (Ok mainRepoRoot);
        Call_Join [mainRepoRoot; ".koh"; worktreeName]
                  (filepath.Join [mainRepoRoot; ".koh"; worktreeName])]
       ++ probe_events (filepath.Join [mainRepoRoot; ".koh"; worktreeName])
                       worktreeName statErr
       ++ t'
       ++ removal_events ctx (negb (os_IsNotExist statErr))
                         (filepath.Join [mainRepoRoot; ".koh"; worktreeName])
                         worktreeName gitErr rmErr
       ++ t''
       ++ [Stdout ("Cleanup complete!" ++ nl)]).

(** The error a Go function returns for a body that ended this way. *)
Definition returned {A : Type} (r : result A) : option error :=
  match r with
  | Ok _ => None
  | Err err => Some err
  end.

(** The whole of [runCleanup]: the error returned and the trace, by exit. *)
Inductive cleanup_run (args : list string) : option error -> Trace -> Prop :=
| run_windows :
    cleanup_run args
      (Some (ErrMsg "cleanup command is not supported on Windows")) []
| run_unresolved (err : error) (t : Trace) :
    resolved args (Err err) t ->
    cleanup_run args (Some err) t
| run_invalid (worktreeName : string) (t : Trace) (err : error) :
    resolved args (Ok worktreeName) t ->
    cleanup_run args
      (Some (ErrWrap "invalid worktree name: " err))
      (t ++ [Call_ValidateWorktreeName worktreeName (Some err)])
| run_body (worktreeName : string) (t t' : Trace) (ctx : Context)
           (r : result unit) :
    resolved args (Ok worktreeName) t ->
    cleanup_body ctx worktreeName r t' ->
    cleanup_run args (returned r)
      (t ++ [Call_ValidateWorktreeName worktreeName None;
             Call_SetupCancellableContext ctx]
         ++ t' ++ [Call_cleanup ctx]).

(** ** A scenario world

    Modelled from the spec: the collaborators of section 6 (internal/git,
    internal/tmux, internal/validation and internal/signals are not among
    the sources), over a small file system.  It serves to run the command
    on concrete scenarios; the theorems about [runCleanup] hold for every
    instance of [Collaborators]. *)
Module Scenario.

Record World : Type := {
  goos : string;
  (** the working directory of the process *)
  cwd : string;
  (** the directories that exist *)
  dirs : list string;
  (** the paths [stat] may not look at *)
  noperm : list string;
  (** the main repository root *)
  root : string;
  (** the root of the linked worktree around [cwd], when there is one *)
  worktree : option string;
  (** the worktrees git refuses to remove *)
  locked : list string;
  (** the repository name, when git can tell it *)
  repo : option string;
  (** the windows of the tmux session, [None] outside tmux *)
  windows : option (list string);
  (** the contexts released so far *)
  released : list Context
}.

Definition mem (s : string) (l : list string) : bool :=
  existsb (String.eqb s) l.

Definition contains (s sub : string) : bool :=
  match String.index 0 sub s with
  | Some _ => true
  | None => false
  end.

Definition set_cwd (d : string) (w : World) : World :=
  {| goos := goos w; cwd := d; dirs := dirs w; noperm := noperm w;
     root := root w; worktree := worktree w; locked := locked w;
     repo := repo w; windows := windows w; released := released w |}.

Definition set_dirs (ds : list string) (w : World) : World :=
  {| goos := goos w; cwd := cwd w; dirs := ds; noperm := noperm w;
     root := root w; worktree := worktree w; locked := locked w;
     repo := repo w; windows := windows w; released := released w |}.

Definition set_windows (ws : option (list string)) (w : World) : World :=
  {| goos := goos w; cwd := cwd w; dirs := dirs w; noperm := noperm w;
     root := root w; worktree := worktree w; locked := locked w;
     repo := repo w; windows := ws; released := released w |}.

Definition release (ctx : Context) (w : World) : World :=
  {| goos := goos w; cwd := cwd w; dirs := dirs w; noperm := noperm w;
     root := root w; worktree := worktree w; locked := locked w;
     repo := repo w; windows := windows w; released := ctx :: released w |}.

(** The directories left when [path] and all below it are gone. *)
Definition without (path : string) (ds : list string) : list string :=
  filter (fun d => negb (nested_under path d)) ds.

(** Modelled from the spec: [validation.ValidateWorktreeName] (section 4.2
    and section 8): the empty name, a name with [..] and a name with a path
    separator are refused. *)
Definition ValidateWorktreeName (name : string) : option error :=
  if String.eqb name "" then Some (ErrMsg "worktree name cannot be empty")
  else if contains name ".." then Some (ErrMsg "worktree name cannot contain '..'")
  else if contains name "/" then Some (ErrMsg "worktree name cannot contain path separators")
  else None.

Definition Stat (path : string) (w : World) : option error :=
  if mem path (noperm w) then Some (ErrMsg ("stat " ++ path ++ ": permission denied"))
  else if mem path (dirs w) then None
  else Some (PathErrNotExist ("stat " ++ path ++ ": no such file or directory")).

Definition Chdir (dir : string) (w : World) : option error * World :=
  if mem dir (dirs w) then (None, set_cwd dir w)
  else (Some (PathErrNotExist ("chdir " ++ dir ++ ": no such file or directory")), w).

Definition RemoveWorktree (path : string) (w : World) : option error * World :=
  if mem path (locked w)
  then (Some (ErrMsg ("cannot remove a locked working tree: " ++ path)), w)
  else if mem path (dirs w) then (None, set_dirs (without path (dirs w)) w)
  else (Some (ErrMsg (path ++ " is not a working tree")), w).

Definition CloseWindow (windowName : string) (w : World) : option error * World :=
  match windows w with
  | Some ws =>
      if mem windowName ws
      then (None, set_windows (Some (filter (fun x => negb (String.eqb x windowName)) ws)) w)
      else (Some (ErrMsg ("window not found: " ++ windowName)), w)
  | None => (Some (ErrMsg "not in a tmux session"), w)
  end.

#[export] Instance collaborators : Collaborators World := {
  runtime_GOOS := goos;
  git_IsInWorktree w :=
    (match worktree w with Some _ => true | None => false end, w);
  git_GetCurrentWorktreePath w :=
    (match worktree w with
     | Some p => Ok p
     | None => Err (ErrMsg "not in a git worktree")
     end, w);
  git_GetMainRepoRoot w := (Ok (root w), w);
  git_GetRepoName w :=
    (match repo w with
     | Some name => Ok name
     | None => Err (ErrMsg "could not determine repository name")
     end, w);
  git_RemoveWorktreeWithContext _ path w := RemoveWorktree path w;
  validation_ValidateWorktreeName name w := (ValidateWorktreeName name, w);
  signals_SetupCancellableContext w := (length (released w), w);
  signals_cleanup := release;
  tmux_IsInTmux w :=
    (match windows w with Some _ => true | None => false end, w);
  tmux_CloseWindow windowName _ w := CloseWindow windowName w;
  os_Stat path w := (Stat path w, w);
  os_Getwd w := (Ok (cwd w), w);
  os_Chdir := Chdir;
  os_RemoveAll path w := (None, set_dirs (without path (dirs w)) w)
}.

(** A repository [/src/myrepo] with the worktree [feature-x], inside a tmux
    session with the matching window; the process stands at [at_]. *)
Definition repo_at (at_ : string) : World :=
  {| goos := "linux";
     cwd := at_;
     dirs := ["/src"; "/src/myrepo"; "/src/myrepo/.koh";
              "/src/myrepo/.koh/feature-x";
              "/src/myrepo/.koh/feature-x/cmd";
              "/src/myrepo/.koh/feature-x/..cache"];
     noperm := [];
     root := "/src/myrepo";
     worktree := if nested_under "/src/myrepo/.koh/feature-x" at_
                 then Some "/src/myrepo/.koh/feature-x" else None;
     locked := [];
     repo := Some "myrepo";
     windows := Some ["myrepo|main"; "myrepo|feature-x"];
     released := [] |}.

(** The same on Windows. *)
Definition on_windows (w : World) : World :=
  {| goos := "windows"; cwd := cwd w; dirs := dirs w; noperm := noperm w;
     root := root w; worktree := worktree w; locked := locked w;
     repo := repo w; windows := windows w; released := released w |}.

(** The same with a worktree directory [stat] is refused. *)
Definition unreadable (path : string) (w : World) : World :=
  {| goos := goos w; cwd := cwd w; dirs := dirs w; noperm := path :: noperm w;
     root := root w; worktree := worktree w; locked := locked w;
     repo := repo w; windows := windows w; released := released w |}.

(** The same with a worktree git refuses to remove. *)
Definition locking (path : string) (w : World) : World :=
  {| goos := goos w; cwd := cwd w; dirs := dirs w; noperm := noperm w;
     root := root w; worktree := worktree w; locked := path :: locked w;
     repo := repo w; windows := windows w; released := released w |}.

(** The same when git cannot tell the repository name. *)
Definition nameless (w : World) : World :=
  {| goos := goos w; cwd := cwd w; dirs := dirs w; noperm := noperm w;
     root := root w; worktree := worktree w; locked := locked w;
     repo := None; windows := windows w; released := released w |}.

End Scenario.

(** ** The steps of a run

    The place of each call in the text of [runCleanup] (and of
    [extractWorkTreeName], which it calls first).  A printed line has no
    place of its own: lines are written at every step. *)
Definition step (ev : Event) : nat :=
  match ev with
  | Stdout _ => 0
  | Call_IsInWorktree _ => 1
  | Call_GetCurrentWorktreePath _ => 2
  | Call_Base _ _ => 3
  | Call_ValidateWorktreeName _ _ => 4
  | Call_SetupCancellableContext _ => 5
  | Call_GetMainRepoRoot _ => 6
  | Call_Join _ _ => 7
  | Call_Stat _ _ => 8
  | Call_Getwd _ => 9
  | Call_Abs _ _ => 10
  | Call_Rel _ _ _ => 11
  | Call_Chdir _ _ => 12
  | Call_RemoveWorktreeWithContext _ _ _ => 13
  | Call_RemoveAll _ _ => 14
  | Call_IsInTmux _ => 15
  | Call_GetRepoName _ => 16
  | Call_CloseWindow _ _ _ => 17
  | Call_cleanup _ => 18
  end.

(** [filepath.Abs] is the one function called twice (lines 98 and 102). *)
Definition step_of_Abs : nat := 10.

(** One call may follow another: it stands later in the text, or both are
    calls of [filepath.Abs]. *)
Definition may_follow (earlier later : nat) : Prop :=
  earlier < later \/ (earlier = step_of_Abs /\ later = step_of_Abs).

(** The calls of [t] stand in the order of the text, after a call of step
    [last]. *)
Fixpoint steps_ascend (last : nat) (t : Trace) : bool :=
  match t with
  | [] => true
  | ev :: rest =>
      if Nat.eqb (step ev) 0 then steps_ascend last rest
      else (Nat.ltb last (step ev)
            || (Nat.eqb last step_of_Abs && Nat.eqb (step ev) step_of_Abs))
           && steps_ascend (step ev) rest
  end.

(** The path a call probes or removes. *)
Definition target_of (ev : Event) : option string :=
  match ev with
  | Call_Stat path _ => Some path
  | Call_RemoveWorktreeWithContext _ path _ => Some path
  | Call_RemoveAll path _ => Some path
  | _ => None
  end.

(** ** The early returns

    The errors [runCleanup] returns, each with the call whose failure it
    reports, as the trace shows it. *)
Inductive early_return (t : Trace) : error -> Prop :=
| unsupported_platform :
    t = [] ->
    early_return t (ErrMsg "cleanup command is not supported on Windows")
| not_in_worktree :
    In (Call_IsInWorktree false) t ->
    early_return t (ErrWrap "failed to extract worktree name: "
                            (ErrMsg "not in a worktree"))
| no_worktree_path (cause : error) :
    In (Call_GetCurrentWorktreePath (Err cause)) t ->
    early_return t (ErrWrap "failed to extract worktree name: "
                            (ErrWrap "failed to get current worktree path: " cause))
| invalid_name (name : string) (cause : error) :
    In (Call_ValidateWorktreeName name (Some cause)) t ->
    early_return t (ErrWrap "invalid worktree name: " cause)
| no_root (cause : error) :
    In (Call_GetMainRepoRoot (Err cause)) t ->
    early_return t (ErrWrap "failed to get main repository root: " cause)
| no_working_directory (cause : error) :
    In (Call_Getwd (Err cause)) t ->
    early_return t (ErrWrap "failed to get current directory: " cause)
| no_absolute_path (dir : string) (cause : error) :
    In (Call_Abs dir (Err cause)) t ->
    (forall p q, ~ In (Call_Abs p (Ok q)) t) ->
    early_return t (ErrWrap "failed to get absolute path: " cause)
| no_absolute_worktree_path (dir currentPath path : string) (cause : error) :
    In (Call_Abs dir (Ok currentPath)) t ->
    In (Call_Abs path (Err cause)) t ->
    early_return t (ErrWrap "failed to get absolute worktree path: " cause)
| no_change_of_directory (dir : string) (cause : error) :
    In (Call_Chdir dir (Some cause)) t ->
    early_return t (ErrWrap "failed to change to parent directory: " cause).

(** ** A world that answers as scripted

    Each collaborator gives the answer written down for it, whatever was
    called before: the runs of [runCleanup] at chosen answers. *)
Module Scripted.

Record Answers : Type := {
  GOOS : string;
  IsInWorktree : bool;
  GetCurrentWorktreePath : result string;
  GetMainRepoRoot : result string;
  GetRepoName : result string;
  RemoveWorktreeWithContext : option error;
  ValidateWorktreeName : string -> option error;
  IsInTmux : bool;
  CloseWindow : option error;
  Stat : option error;
  Getwd : result string;
  Chdir : option error;
  RemoveAll : option error
}.

#[export] Instance collaborators : Collaborators Answers := {
  runtime_GOOS := GOOS;
  git_IsInWorktree a := (IsInWorktree a, a);
  git_GetCurrentWorktreePath a := (GetCurrentWorktreePath a, a);
  git_GetMainRepoRoot a := (GetMainRepoRoot a, a);
  git_GetRepoName a := (GetRepoName a, a);
  git_RemoveWorktreeWithContext _ _ a := (RemoveWorktreeWithContext a, a);
  validation_ValidateWorktreeName name a := (ValidateWorktreeName a name, a);
  signals_SetupCancellableContext a := (1, a);
  signals_cleanup _ a := a;
  tmux_IsInTmux a := (IsInTmux a, a);
  tmux_CloseWindow _ _ a := (CloseWindow a, a);
  os_Stat _ a := (Stat a, a);
  os_Getwd a := (Getwd a, a);
  os_Chdir _ a := (Chdir a, a);
  os_RemoveAll _ a := (RemoveAll a, a)
}.

(** Everything answers well: the process stands in the worktree
    [/src/myrepo/.koh/feature-x] of [/src/myrepo], inside tmux. *)
Definition all_well : Answers :=
  {| GOOS := "linux";
     IsInWorktree := true;
     GetCurrentWorktreePath := Ok "/src/myrepo/.koh/feature-x";
     GetMainRepoRoot := Ok "/src/myrepo";
     GetRepoName := Ok "myrepo";
     RemoveWorktreeWithContext := None;
     ValidateWorktreeName := fun _ => None;
     IsInTmux := true;
     CloseWindow := None;
     Stat := None;
     Getwd := Ok "/src/myrepo/.koh/feature-x";
     Chdir := None;
     RemoveAll := None |}.

(** The same, but git cannot tell the path of the current worktree. *)
Definition no_worktree_path : Answers :=
  {| GOOS := "linux";
     IsInWorktree := true;
     GetCurrentWorktreePath := Err (ErrMsg "exit status 128");
     GetMainRepoRoot := Ok "/src/myrepo";
     GetRepoName := Ok "myrepo";
     RemoveWorktreeWithContext := None;
     ValidateWorktreeName := fun _ => None;
     IsInTmux := true;
     CloseWindow := None;
     Stat := None;
     Getwd := Ok "/src/myrepo/.koh/feature-x";
     Chdir := None;
     RemoveAll := None |}.

(** The same as [all_well], but the main repository root cannot be entered. *)
Definition no_chdir : Answers :=
  {| GOOS := "linux";
     IsInWorktree := true;
     GetCurrentWorktreePath := Ok "/src/myrepo/.koh/feature-x";
     GetMainRepoRoot := Ok "/src/myrepo";
     GetRepoName := Ok "myrepo";
     RemoveWorktreeWithContext := None;
     ValidateWorktreeName := fun _ => None;
     IsInTmux := true;
     CloseWindow := None;
     Stat := None;
     Getwd := Ok "/src/myrepo/.koh/feature-x";
     Chdir := Some (ErrMsg "chdir /src/myrepo: permission denied");
     RemoveAll := None |}.

(** The same as [all_well], outside tmux. *)
Definition no_session : Answers :=
  {| GOOS := "linux";
     IsInWorktree := true;
     GetCurrentWorktreePath := Ok "/src/myrepo/.koh/feature-x";
     GetMainRepoRoot := Ok "/src/myrepo";
     GetRepoName := Ok "myrepo";
     RemoveWorktreeWithContext := None;
     ValidateWorktreeName := fun _ => None;
     IsInTmux := false;
     CloseWindow := None;
     Stat := None;
     Getwd := Ok "/src/myrepo/.koh/feature-x";
     Chdir := None;
     RemoveAll := None |}.

(** The process stands in the main repository, inside tmux, and every step
    of the teardown fails: git refuses to remove the worktree, the directory
    cannot be removed, the repository name cannot be told and the window
    cannot be closed. *)
Definition every_step_fails : Answers :=
  {| GOOS := "linux";
     IsInWorktree := false;
     GetCurrentWorktreePath := Err (ErrMsg "exit status 128");
     GetMainRepoRoot := Ok "/src/myrepo";
     GetRepoName := Err (ErrMsg "exit status 128");
     RemoveWorktreeWithContext := Some (ErrMsg "cannot remove a locked working tree");
     ValidateWorktreeName := fun _ => None;
     IsInTmux := true;
     CloseWindow := Some (ErrMsg "window not found");
     Stat := None;
     Getwd := Ok "/src/myrepo";
     Chdir := None;
     RemoveAll := Some (ErrMsg "unlinkat /src/myrepo/.koh/feature-x: permission denied") |}.

End Scripted.

(** * Properties *)

(** ** Paths *)

Module PathFacts.
Import filepath.

Lemma splitSlash_noslash_cons (a rest : string) :
  splitSlash a = [a] ->
  splitSlash (a ++ String slash rest) = a :: splitSlash rest.
Proof.
  induction a as [|c a IH]; intros H.
  - reflexivity.
  - simpl in *. destruct (Ascii.eqb c slash).
    + discriminate H.
    + destruct (splitSlash a) as [|h t] eqn:E.
      * inversion H; subst. discriminate E.
      * inversion H; subst. rewrite IH by reflexivity. reflexivity.
Qed.

Lemma splitSlash_joinSlash (segs : list string) :
  Forall (fun s => splitSlash s = [s]) segs ->
  segs <> [] ->
  splitSlash (joinSlash segs) = segs.
Proof.
  induction segs as [|x l IH]; intros H Hne; [congruence|].
  inversion H as [|? ? Hx Hl]; subst.
  destruct l as [|y l'].
  - exact Hx.
  - change (joinSlash (x :: y :: l')) with (x ++ String slash (joinSlash (y :: l'))).
    rewrite splitSlash_noslash_cons by exact Hx.
    rewrite IH by (assumption || discriminate). reflexivity.
Qed.

Lemma plain_noslash (segs : list string) :
  Forall plain segs -> Forall (fun s => splitSlash s = [s]) segs.
Proof.
  intros H. eapply Forall_impl; [|exact H]. intros s (_ & _ & _ & Hs). exact Hs.
Qed.

Lemma cleanStep_plain (rooted_ : bool) (out : list string) (seg : string) :
  plain seg -> cleanStep rooted_ out seg = seg :: out.
Proof.
  intros (H1 & H2 & H3 & _). unfold cleanStep.
  apply String.eqb_neq in H1, H2, H3. rewrite H1, H2, H3. reflexivity.
Qed.

Lemma fold_cleanStep_plain (rooted_ : bool) (segs out : list string) :
  Forall plain segs ->
  fold_left (cleanStep rooted_) segs out = (rev segs ++ out)%list.
Proof.
  revert out. induction segs as [|x l IH]; intros out H; [reflexivity|].
  inversion H; subst. simpl. rewrite cleanStep_plain by assumption.
  rewrite IH by assumption. rewrite <- app_assoc. reflexivity.
Qed.

Lemma IsAbs_rooted (segs : list string) : IsAbs (rooted segs) = true.
Proof.
  unfold IsAbs, HasPrefix, rooted. simpl.
  destruct (joinSlash segs); reflexivity.
Qed.

Lemma splitSlash_rooted (segs : list string) :
  splitSlash (rooted segs) = "" :: splitSlash (joinSlash segs).
Proof. reflexivity. Qed.

Lemma rooted_not_empty (segs : list string) : String.eqb (rooted segs) "" = false.
Proof. reflexivity. Qed.

Lemma Clean_rooted (segs : list string) :
  Forall plain segs -> Clean (rooted segs) = rooted segs.
Proof.
  intros H. unfold Clean.
  rewrite rooted_not_empty, IsAbs_rooted, splitSlash_rooted.
  destruct segs as [|x l].
  - reflexivity.
  - rewrite splitSlash_joinSlash
      by first [apply plain_noslash; assumption | discriminate].
    change (fold_left (cleanStep true) ("" :: x :: l) [])
      with (fold_left (cleanStep true) (x :: l) []).
    rewrite fold_cleanStep_plain by assumption.
    rewrite app_nil_r, rev_involutive. reflexivity.
Qed.

Lemma plain_joinSlash_nonempty (x : string) (l : list string) :
  plain x -> joinSlash (x :: l) <> "".
Proof.
  intros (H & _). destruct l; simpl.
  - exact H.
  - destruct x; [congruence|discriminate].
Qed.

Lemma elements_rooted (segs : list string) :
  Forall plain segs -> elements (rooted segs) = segs.
Proof.
  intros H. unfold elements, rooted.
  change ("/" ++ joinSlash segs) with (String slash (joinSlash segs)).
  replace (Ascii.eqb slash slash) with true by reflexivity. cbn iota.
  destruct segs as [|x l]; [reflexivity|].
  inversion H; subst.
  pose proof (plain_joinSlash_nonempty x l ltac:(assumption)) as Hne.
  apply String.eqb_neq in Hne. rewrite Hne.
  apply splitSlash_joinSlash; [apply plain_noslash; assumption|discriminate].
Qed.

Lemma rooted_inj (ts cs : list string) :
  Forall plain ts -> Forall plain cs -> rooted ts = rooted cs -> ts = cs.
Proof.
  intros Ht Hc E. rewrite <- (elements_rooted ts Ht), <- (elements_rooted cs Hc).
  rewrite E. reflexivity.
Qed.

Lemma dropCommon_app (ts rest : list string) :
  dropCommon ts (ts ++ rest) = ([], rest).
Proof.
  induction ts as [|t ts IH]; simpl.
  - destruct rest; reflexivity.
  - rewrite String.eqb_refl. exact IH.
Qed.

Lemma dropCommon_not_leading (ts cs : list string) :
  (forall rest, cs <> (ts ++ rest)%list) ->
  exists b bs cs', dropCommon ts cs = (b :: bs, cs') /\ In b ts.
Proof.
  revert cs. induction ts as [|t ts IH]; intros cs H.
  - exfalso. apply (H cs). reflexivity.
  - destruct cs as [|c cs].
    + exists t, ts, []. split; [reflexivity|left; reflexivity].
    + simpl. destruct (String.eqb t c) eqn:E.
      * apply String.eqb_eq in E. subst c.
        destruct (IH cs) as (b & bs & cs' & E' & Hin).
        { intros rest Hr. apply (H rest). simpl. rewrite Hr. reflexivity. }
        exists b, bs, cs'. split; [exact E'|right; exact Hin].
      * exists t, ts, (c :: cs). split; [reflexivity|left; reflexivity].
Qed.

Lemma HasPrefix_dotdot_joinSlash (l : list string) :
  HasPrefix (joinSlash (".." :: l)) ".." = true.
Proof.
  destruct l as [|y l]; reflexivity.
Qed.

Lemma prefix_cons (a b : ascii) (s1 s2 : string) :
  String.prefix (String a s1) (String b s2)
  = if ascii_dec a b then String.prefix s1 s2 else false.
Proof. reflexivity. Qed.

Lemma prefix_empty (s : string) : String.prefix "" s = true.
Proof. destruct s; reflexivity. Qed.

Lemma prefix_dot_slash (p s : string) :
  String.prefix (String "." p) (String slash s) = false.
Proof.
  rewrite prefix_cons. destruct (ascii_dec "." slash) as [E|]; [|reflexivity].
  discriminate E.
Qed.

Lemma HasPrefix_joinSlash_head (r : string) (l : list string) :
  HasPrefix (joinSlash (r :: l)) ".." = HasPrefix r "..".
Proof.
  destruct l as [|y l]; [reflexivity|].
  unfold HasPrefix.
  change (joinSlash (r :: y :: l)) with (r ++ String slash (joinSlash (y :: l))).
  generalize (joinSlash (y :: l)) as tail. intros tail.
  destruct r as [|c1 r1].
  - change ("" ++ String slash tail) with (String slash tail).
    rewrite prefix_dot_slash. reflexivity.
  - change (String c1 r1 ++ String slash tail)
      with (String c1 (r1 ++ String slash tail)).
    rewrite !prefix_cons. destruct (ascii_dec "." c1); [|reflexivity].
    destruct r1 as [|c2 r2].
    + change ("" ++ String slash tail) with (String slash tail).
      rewrite prefix_dot_slash. reflexivity.
    + change (String c2 r2 ++ String slash tail)
        with (String c2 (r2 ++ String slash tail)).
      rewrite !prefix_cons. destruct (ascii_dec "." c2); [|reflexivity].
      rewrite !prefix_empty. reflexivity.
Qed.

Lemma Rel_rooted_start (ts cs : list string) :
  Forall plain ts -> Forall plain cs -> ts <> cs ->
  Rel (rooted ts) (rooted cs)
  = match dropCommon ts cs with
    | ((b :: _) as bs, (_ :: _) as cs') =>
        if String.eqb b ".." then Err (relError (rooted ts) (rooted cs))
        else Ok (joinSlash (map (fun _ => "..") bs ++ cs'))
    | ((_ :: _) as bs, []) => Ok (joinSlash (map (fun _ => "..") bs))
    | ([], cs') => Ok (joinSlash cs')
    end.
Proof.
  intros Ht Hc Hne. unfold Rel.
  rewrite (Clean_rooted ts Ht), (Clean_rooted cs Hc).
  destruct (String.eqb (rooted cs) (rooted ts)) eqn:E.
  { apply String.eqb_eq in E. apply rooted_inj in E; congruence. }
  replace (String.eqb (rooted ts) ".") with false by reflexivity.
  rewrite (IsAbs_rooted ts), (IsAbs_rooted cs).
  rewrite (elements_rooted ts Ht), (elements_rooted cs Hc). reflexivity.
Qed.

(** A current directory outside the worktree path: the relative path begins
    with [..]. *)
Lemma Rel_outside (target cwd : string) :
  outside_of target cwd -> parent_escape (Rel target cwd).
Proof.
  intros (ts & cs & Ht & Hc & -> & -> & Hout).
  rewrite Rel_rooted_start; try assumption.
  2:{ intros E. apply (Hout []). rewrite app_nil_r. congruence. }
  destruct (dropCommon_not_leading ts cs Hout) as (b & bs & cs' & E & Hin).
  rewrite E.
  assert (Hb : String.eqb b ".." = false).
  { apply String.eqb_neq. rewrite Forall_forall in Ht.
    destruct (Ht b Hin) as (_ & _ & H & _). exact H. }
  destruct cs'; [|rewrite Hb]; apply HasPrefix_dotdot_joinSlash.
Qed.

(** A current directory at or under the worktree path: line 109 takes it for
    inside unless the first element below the worktree path begins with
    [..]. *)
Lemma isInTargetWorktree_under (ts rest : list string) :
  Forall plain ts -> Forall plain rest ->
  isInTargetWorktree (Rel (rooted ts) (rooted (ts ++ rest)))
  = match rest with
    | [] => true
    | r :: _ => negb (HasPrefix r "..")
    end.
Proof.
  intros Ht Hr. destruct rest as [|r rest].
  - rewrite app_nil_r. unfold Rel. rewrite String.eqb_refl. reflexivity.
  - rewrite Rel_rooted_start; try assumption.
    + rewrite dropCommon_app. cbv beta iota. unfold isInTargetWorktree.
      rewrite HasPrefix_joinSlash_head. reflexivity.
    + apply Forall_app. split; assumption.
    + intros E. apply (f_equal (@length string)) in E.
      rewrite length_app in E. simpl in E. lia.
Qed.

Lemma Rel_plainly_under (target cwd : string) :
  plainly_under target cwd -> isInTargetWorktree (Rel target cwd) = true.
Proof.
  intros (ts & rest & Ht & Hr & -> & -> & Hfirst).
  rewrite isInTargetWorktree_under by assumption.
  destruct rest as [|r rest]; [reflexivity|]. rewrite Hfirst. reflexivity.
Qed.

End PathFacts.

(** ** The target path *)

Module TargetPaths.
Import filepath PathFacts.

Lemma append_assoc (a b c : string) : (a ++ b) ++ c = a ++ (b ++ c).
Proof.
  induction a as [|ch a IH]; [reflexivity|]. simpl. rewrite IH. reflexivity.
Qed.

Lemma joinSlash_app_cons (l : list string) (y : string) (r : list string) :
  l <> [] ->
  joinSlash (l ++ y :: r) = joinSlash l ++ String slash (joinSlash (y :: r)).
Proof.
  induction l as [|x l IH]; intros Hne; [congruence|].
  destruct l as [|x' l'].
  - reflexivity.
  - change (joinSlash ((x :: x' :: l') ++ y :: r))
      with (x ++ String slash (joinSlash ((x' :: l') ++ y :: r))).
    rewrite IH by discriminate.
    change (joinSlash (x :: x' :: l'))
      with (x ++ String slash (joinSlash (x' :: l'))).
    rewrite append_assoc. reflexivity.
Qed.

Lemma plain_koh : plain ".koh".
Proof. repeat split; discriminate. Qed.

(** Line 81 on a cleaned absolute root and a plain name: the worktree path
    is the root followed by [.koh] and the name. *)
Lemma Join_rooted (rs : list string) (name : string) :
  Forall plain rs -> plain name ->
  Join [rooted rs; ".koh"; name] = rooted (rs ++ [".koh"; name]).
Proof.
  intros Hrs Hname.
  assert (Hall : Forall plain (rs ++ [".koh"; name])).
  { apply Forall_app. split; [exact Hrs|].
    apply Forall_cons; [apply plain_koh|].
    apply Forall_cons; [exact Hname|apply Forall_nil]. }
  unfold Join. cbn [dropEmpty]. rewrite rooted_not_empty.
  destruct rs as [|x l].
  - change (joinSlash [rooted []; ".koh"; name])
      with (rooted ("" :: [".koh"; name])).
    unfold Clean. rewrite rooted_not_empty, IsAbs_rooted, splitSlash_rooted.
    change (joinSlash ["" ; ".koh"; name])
      with ("" ++ String slash (joinSlash [".koh"; name])).
    rewrite splitSlash_noslash_cons by reflexivity.
    rewrite splitSlash_joinSlash
      by first [apply plain_noslash; exact Hall | discriminate].
    change (fold_left (cleanStep true) ["" ; ""; ".koh"; name] [])
      with (fold_left (cleanStep true) [".koh"; name] []).
    rewrite fold_cleanStep_plain by exact Hall. reflexivity.
  - change (joinSlash [rooted (x :: l); ".koh"; name])
      with (rooted (x :: l) ++ String slash (joinSlash [".koh"; name])).
    unfold rooted at 1.
    rewrite append_assoc, <- joinSlash_app_cons by discriminate.
    apply Clean_rooted. exact Hall.
Qed.

Lemma stripTrailingEmpty_full (l : list string) :
  Forall (fun s => s <> "") l -> stripTrailingEmpty l = l.
Proof.
  induction 1 as [|x l Hx _ IH]; [reflexivity|].
  simpl. rewrite IH. destruct l; [|reflexivity].
  apply String.eqb_neq in Hx. rewrite Hx. reflexivity.
Qed.

(** Line 42 on a cleaned absolute path: the name is the last element. *)
Lemma Base_rooted (l : list string) (x : string) :
  Forall plain l -> plain x -> Base (rooted (l ++ [x])) = x.
Proof.
  intros Hl Hx.
  assert (Hall : Forall plain (l ++ [x])).
  { apply Forall_app. split; [exact Hl|].
    apply Forall_cons; [exact Hx|apply Forall_nil]. }
  unfold Base. rewrite rooted_not_empty, splitSlash_rooted.
  rewrite splitSlash_joinSlash
    by first [apply plain_noslash; exact Hall | destruct l; discriminate].
  assert (E : stripTrailingEmpty ("" :: l ++ [x]) = "" :: l ++ [x]).
  { change (stripTrailingEmpty ("" :: l ++ [x]))
      with (match stripTrailingEmpty (l ++ [x]) with
            | [] => if String.eqb "" "" then [] else [""]
            | rest' => "" :: rest'
            end).
    rewrite stripTrailingEmpty_full.
    - destruct l; reflexivity.
    - eapply Forall_impl; [|exact Hall]. intros s Hs. apply Hs. }
  rewrite E. change ("" :: l ++ [x])%list with (("" :: l) ++ [x])%list.
  rewrite last_last. reflexivity.
Qed.

(** The elements of [ts] are, or are not, the leading elements of [cs]. *)
Lemma leading_dec (ts cs : list string) :
  (exists rest, cs = (ts ++ rest)%list) \/ (forall rest, cs <> (ts ++ rest)%list).
Proof.
  revert cs. induction ts as [|t ts IH]; intros cs.
  - left. exists cs. reflexivity.
  - destruct cs as [|c cs].
    + right. intros rest E. discriminate E.
    + destruct (string_dec t c) as [->|Hne].
      * destruct (IH cs) as [[rest ->]|Hno].
        -- left. exists rest. reflexivity.
        -- right. intros rest E. inversion E. apply (Hno rest). assumption.
      * right. intros rest E. inversion E. congruence.
Qed.

(** X2.  Line 109 on cleaned absolute paths: the current directory is taken
    for inside the worktree path exactly when the elements of the worktree
    path are its leading elements and the element that follows them, if
    there is one, does not begin with two dots. *)
Theorem line_109_decides (ts cs : list string) :
  Forall plain ts -> Forall plain cs ->
  isInTargetWorktree (Rel (rooted ts) (rooted cs)) = true
  <-> exists rest,
        cs = (ts ++ rest)%list /\
        match rest with
        | [] => True
        | r :: _ => HasPrefix r ".." = false
        end.
Proof.
  intros Hts Hcs. split.
  - intros H. destruct (leading_dec ts cs) as [[rest ->]|Hno].
    + apply Forall_app in Hcs. destruct Hcs as [_ Hrest].
      rewrite isInTargetWorktree_under in H by assumption.
      exists rest. split; [reflexivity|].
      destruct rest as [|r rest]; [exact I|].
      apply Bool.negb_true_iff. exact H.
    + assert (O : outside_of (rooted ts) (rooted cs)).
      { exists ts, cs. repeat split; assumption. }
      apply Rel_outside in O.
      destruct (Rel (rooted ts) (rooted cs)) as [rel|err]; simpl in *.
      * rewrite O in H. discriminate H.
      * discriminate H.
  - intros (rest & -> & H).
    apply Forall_app in Hcs. destruct Hcs as [_ Hrest].
    rewrite isInTargetWorktree_under by assumption.
    destruct rest as [|r rest]; [reflexivity|]. rewrite H. reflexivity.
Qed.

End TargetPaths.

(** ** The blocks of [runCleanup] leave the traces of their shapes *)

#[local] Arguments String.append : simpl never.

Section Shapes.

Context {W : Type} {C : Collaborators W}.

Ltac run_block :=
  unfold bind, call, pure_call, wrapping, Printf, Println, ret, fail; simpl.

Lemma resolveWorktreeName_shape (args : list string) (w : W) :
  resolved args (fst (fst (resolveWorktreeName args w)))
                (snd (resolveWorktreeName args w)).
Proof.
  destruct args as [|arg0 rest]; unfold resolveWorktreeName, extractWorkTreeName.
  - run_block.
    destruct (git_IsInWorktree w) as [[|] w1]; simpl.
    + destruct (git_GetCurrentWorktreePath w1) as [[currentPath|err] w2]; simpl;
        constructor.
    + constructor.
  - run_block. constructor.
Qed.

Lemma probeWorktree_shape (worktreePath worktreeName : string) (w : W) :
  exists err w1,
    probeWorktree worktreePath worktreeName w
    = (Ok (negb (os_IsNotExist err)), w1,
       probe_events worktreePath worktreeName err).
Proof.
  unfold probeWorktree, probe_events. run_block.
  destruct (os_Stat worktreePath w) as [err w1].
  exists err, w1. destruct (os_IsNotExist err); reflexivity.
Qed.

Lemma leaveTargetWorktree_shape (mainRepoRoot worktreePath : string) (w : W) :
  relocated mainRepoRoot worktreePath
            (fst (fst (leaveTargetWorktree mainRepoRoot worktreePath w)))
            (snd (leaveTargetWorktree mainRepoRoot worktreePath w)).
Proof.
  unfold leaveTargetWorktree. run_block.
  destruct (os_Getwd w) as [[currentDir|err] w1]; simpl; [|constructor].
  destruct (filepath_Abs currentDir w1) as [[currentPath|err] w2]; simpl;
    [|constructor].
  destruct (filepath_Abs worktreePath w2) as [[absWorktreePath|err] w3]; simpl;
    [|constructor].
  destruct (isInTargetWorktree (filepath.Rel absWorktreePath currentPath)) eqn:E;
    simpl.
  - destruct (os_Chdir mainRepoRoot w3) as [[err|] w4]; simpl;
      constructor; exact E.
  - constructor; exact E.
Qed.

Lemma removeWorktree_shape (ctx : Context) (worktreeExists : bool)
                           (worktreePath worktreeName : string) (w : W) :
  exists gitErr rmErr w1,
    removeWorktree ctx worktreeExists worktreePath worktreeName w
    = (Ok tt, w1,
       removal_events ctx worktreeExists worktreePath worktreeName gitErr rmErr).
Proof.
  unfold removeWorktree, removal_events. destruct worktreeExists.
  - run_block.
    destruct (git_RemoveWorktreeWithContext ctx worktreePath w) as [gitErr w1].
    destruct gitErr as [e1|]; simpl;
      destruct (os_RemoveAll worktreePath w1) as [rmErr w2];
      destruct rmErr as [e2|]; simpl.
    + exists (Some e1), (Some e2), w2; reflexivity.
    + exists (Some e1), None, w2; reflexivity.
    + exists None, (Some e2), w2; reflexivity.
    + exists None, None, w2; reflexivity.
  - exists None, None, w. reflexivity.
Qed.

Lemma closeTmuxWindow_shape (worktreeName : string) (w : W) :
  exists w1 t,
    closeTmuxWindow worktreeName w = (Ok tt, w1, t) /\
    window_step worktreeName t.
Proof.
  unfold closeTmuxWindow. run_block.
  destruct (tmux_IsInTmux w) as [[|] w1]; simpl.
  - destruct (git_GetRepoName w1) as [[repoName|e] w2]; simpl.
    + destruct (tmux_CloseWindow (repoName ++ "|" ++ worktreeName) worktreeName w2)
        as [[e'|] w3] eqn:E; simpl.
      * eexists; eexists; split; [reflexivity|].
        apply (window_close worktreeName (Ok repoName) (Some e')).
      * eexists; eexists; split; [reflexivity|].
        apply (window_close worktreeName (Ok repoName) None).
    + destruct (tmux_CloseWindow ("" ++ "|" ++ worktreeName) worktreeName w2)
        as [[e'|] w3] eqn:E; simpl.
      * eexists; eexists; split; [reflexivity|].
        apply (window_close worktreeName (Err e) (Some e')).
      * eexists; eexists; split; [reflexivity|].
        apply (window_close worktreeName (Err e) None).
  - eexists; eexists; split; [reflexivity|]. constructor.
Qed.

End Shapes.

Section Runs.

Context {W : Type} {C : Collaborators W}.

Lemma cleanupWorktree_shape (ctx : Context) (worktreeName : string) (w : W) :
  forall r w1 t,
    cleanupWorktree ctx worktreeName w = (r, w1, t) ->
    cleanup_body ctx worktreeName r t.
Proof.
  intros r w1 t H. unfold cleanupWorktree in H.
  unfold bind at 1 in H. unfold call at 1 in H.
  destruct (git_GetMainRepoRoot w) as [[mainRepoRoot|err] w2].
  2:{ inversion H; subst. apply body_noroot. }
  unfold bind at 1 in H. unfold pure_call at 1 in H.
  set (worktreePath := filepath.Join [mainRepoRoot; ".koh"; worktreeName]) in *.
  unfold bind at 1 in H.
  destruct (probeWorktree_shape worktreePath worktreeName w2) as (statErr & w3 & EP).
  rewrite EP in H.
  unfold bind at 1 in H.
  pose proof (leaveTargetWorktree_shape mainRepoRoot worktreePath w3) as HL.
  destruct (leaveTargetWorktree mainRepoRoot worktreePath w3) as [[rl w4] t'].
  cbn [fst snd] in HL.
  destruct rl as [[]|err].
  - unfold bind at 1 in H.
    destruct (removeWorktree_shape ctx (negb (os_IsNotExist statErr))
                worktreePath worktreeName w4) as (gitErr & rmErr & w5 & ER).
    rewrite ER in H.
    unfold bind at 1 in H.
    destruct (closeTmuxWindow_shape worktreeName w5) as (w6 & t'' & ET & HT).
    rewrite ET in H. unfold Println, Printf in H.
    inversion H; subst.
    apply (body_done ctx worktreeName mainRepoRoot statErr gitErr rmErr t' t'' HL HT).
  - inversion H; subst.
    apply (body_stranded ctx worktreeName mainRepoRoot statErr err t' HL).
Qed.

Lemma runCleanup_shape_eq (args : list string) (w : W) :
  forall res w' t,
    runCleanup args w = (res, w', t) -> cleanup_run args res t.
Proof.
  intros res w' t0 H. unfold runCleanup, runCleanupM in H.
  destruct (String.eqb (runtime_GOOS w) "windows").
  { inversion H; subst. apply run_windows. }
  unfold bind at 1 in H.
  pose proof (resolveWorktreeName_shape args w) as HR.
  destruct (resolveWorktreeName args w) as [[rn w1] t].
  cbn [fst snd] in HR.
  destruct rn as [worktreeName|err].
  2:{ inversion H; subst. apply run_unresolved. exact HR. }
  unfold bind at 1 in H. unfold call at 1 in H.
  destruct (validation_ValidateWorktreeName worktreeName w1) as [[err|] w2].
  { inversion H; subst. apply (run_invalid args worktreeName t err HR). }
  unfold bind at 1 in H. unfold call at 1 in H.
  destruct (signals_SetupCancellableContext w2) as [ctx w3].
  unfold defer in H.
  pose proof (cleanupWorktree_shape ctx worktreeName w3) as HB.
  destruct (cleanupWorktree ctx worktreeName w3) as [[rb w4] t'].
  specialize (HB rb w4 t' eq_refl).
  pose proof (run_body args worktreeName t t' ctx rb HR HB) as HRun.
  destruct rb as [[]|err]; inversion H; subst; exact HRun.
Qed.

Theorem runCleanup_shape (args : list string) (w : W) :
  cleanup_run args (error_of (runCleanup args w)) (trace_of (runCleanup args w)).
Proof.
  destruct (runCleanup args w) as [[res w'] t] eqn:E.
  exact (runCleanup_shape_eq args w res w' t E).
Qed.

End Runs.

(** ** Reading the shapes *)

(** Membership in a trace built from the shapes, taken down to the single
    events: what is left are the equations between an event of the shape and
    the event looked for, those between different calls apart. *)
Ltac in_trace H :=
  repeat rewrite in_app_iff in H;
  lazymatch type of H with
  | _ \/ _ => destruct H as [H|H]; in_trace H
  | False => contradiction
  | _ = _ => try discriminate H
  | In _ (probe_events _ _ ?e) =>
      unfold probe_events in H; destruct (os_IsNotExist e) eqn:?; in_trace H
  | In _ (removal_events _ (negb (os_IsNotExist ?e)) _ _ _ ?r) =>
      unfold removal_events in H;
      destruct (os_IsNotExist e) eqn:?; destruct r; cbn [negb] in H; in_trace H
  | In _ (match ?r with _ => _ end) => destruct r; in_trace H
  | In _ ?t =>
      tryif is_var t then
        match goal with
        | R : relocated _ _ _ t |- _ => inversion R; subst; clear R; in_trace H
        | R : window_step _ t |- _ => inversion R; subst; clear R; in_trace H
        | R : resolved _ _ t |- _ => inversion R; subst; clear R; in_trace H
        | R : cleanup_body _ _ _ t |- _ => inversion R; subst; clear R; in_trace H
        | _ => idtac
        end
      else (progress simpl in H; in_trace H)
  | _ => idtac
  end.

Ltac invert_run H :=
  inversion H; subst; clear H;
  repeat match goal with
         | R : resolved _ _ _ |- _ => inversion R; subst; clear R
         | B : cleanup_body _ _ _ _ |- _ => inversion B; subst; clear B
         end.

Lemma next_to_here (a b : Event) (l : Trace) : next_to a b (a :: b :: l).
Proof. exists [], l. reflexivity. Qed.

Lemma next_to_cons (a b x : Event) (l : Trace) :
  next_to a b l -> next_to a b (x :: l).
Proof.
  intros (pre & post & E). exists (x :: pre), post. rewrite E. reflexivity.
Qed.

Lemma next_to_app_r (a b : Event) (l r : Trace) :
  next_to a b r -> next_to a b (l ++ r).
Proof.
  intros (pre & post & E). exists (l ++ pre)%list, post.
  rewrite E, app_assoc. reflexivity.
Qed.

Lemma next_to_app_l (a b : Event) (l r : Trace) :
  next_to a b l -> next_to a b (l ++ r).
Proof.
  intros (pre & post & E). exists pre, (post ++ r)%list.
  rewrite E, <- app_assoc. reflexivity.
Qed.

(** Finds two neighbouring events in a trace built from the shapes. *)
Ltac find_next :=
  match goal with
  | |- next_to _ _ (_ :: _ :: _) => apply next_to_here
  | |- next_to _ _ (_ :: _) => apply next_to_cons; find_next
  | |- next_to _ _ (_ ++ _) => apply next_to_app_l; find_next
  | |- next_to _ _ (_ ++ _) => apply next_to_app_r; find_next
  end.

(** Finds an event in a trace built from the shapes. *)
Ltac find_event :=
  match goal with
  | |- In _ (_ :: _) => left; reflexivity
  | |- In _ (_ :: _) => right; find_event
  | |- In _ (_ ++ _) => apply in_or_app; left; find_event
  | |- In _ (_ ++ _) => apply in_or_app; right; find_event
  end.

Lemma precedes_here (a b : Event) (l : Trace) :
  In b l -> precedes a b (a :: l).
Proof.
  intros H. apply in_split in H. destruct H as (l1 & l2 & ->).
  exists (a :: l1), l2. split; [reflexivity|left; reflexivity].
Qed.

Lemma precedes_cons (a b x : Event) (l : Trace) :
  precedes a b l -> precedes a b (x :: l).
Proof.
  intros (pre & post & E & H). exists (x :: pre), post.
  split; [rewrite E; reflexivity|right; exact H].
Qed.

Lemma precedes_app_r (a b : Event) (l r : Trace) :
  precedes a b r -> precedes a b (l ++ r).
Proof.
  intros (pre & post & E & H). exists (l ++ pre)%list, post.
  split; [rewrite E, app_assoc; reflexivity|apply in_or_app; right; exact H].
Qed.

Lemma precedes_app_l (a b : Event) (l r : Trace) :
  precedes a b l -> precedes a b (l ++ r).
Proof.
  intros (pre & post & E & H). exists pre, (post ++ r)%list.
  split; [rewrite E, <- app_assoc; reflexivity|exact H].
Qed.

(** Finds an event before another in a trace built from the shapes. *)
Ltac find_before :=
  match goal with
  | |- precedes _ _ (_ :: _) => apply precedes_here; find_event
  | |- precedes _ _ (_ :: _) => apply precedes_cons; find_before
  | |- precedes _ _ (_ ++ _) => apply precedes_app_l; find_before
  | |- precedes _ _ (_ ++ _) => apply precedes_app_r; find_before
  end.

Lemma precedes_app (a b : Event) (l r : Trace) :
  In a l -> In b r -> precedes a b (l ++ r).
Proof.
  intros Ha Hb. apply in_split in Hb. destruct Hb as (r1 & r2 & ->).
  exists (l ++ r1)%list, r2.
  split; [rewrite app_assoc; reflexivity|apply in_or_app; left; exact Ha].
Qed.

(** The same, for two events that may stand in different parts of a trace
    built from the shapes. *)
Ltac find_apart :=
  match goal with
  | |- precedes _ _ (_ :: _) => apply precedes_here; find_event
  | |- precedes _ _ (_ :: _) => apply precedes_cons; find_apart
  | |- precedes _ _ (_ ++ _) => apply precedes_app; [find_event|find_event]
  | |- precedes _ _ (_ ++ _) => apply precedes_app_l; find_apart
  | |- precedes _ _ (_ ++ _) => apply precedes_app_r; find_apart
  end.

Ltac read_run args w HS :=
  pose proof (runCleanup_shape args w) as HS;
  destruct (runCleanup args w) as [[? ?] ?];
  unfold error_of, trace_of in *; cbn [fst snd] in *.

(** A completed run ends with the final notice and the release. *)
Ltac complete_prefix :=
  match goal with
  | |- exists _ _,
        (?a ++ ?b ++ (?c ++ ?d ++ ?e ++ ?f ++ ?g ++ ?h) ++ [Call_cleanup ?k])%list
        = _ =>
      exists (a ++ b ++ c ++ d ++ e ++ f ++ g)%list, k;
      repeat rewrite <- app_assoc; reflexivity
  end.

Ltac show_shapes :=
  unfold probe_events, removal_events;
  repeat match goal with
         | E : os_IsNotExist _ = _ |- _ => rewrite E
         end;
  cbn [negb app].

(** Closes the case of an exit that stands before line 120, for a run known
    to have entered the teardown steps. *)
Ltac before_teardown H :=
  let HR := fresh "HR" in
  let HC := fresh "HC" in
  exfalso; destruct H as [(? & ? & ? & HR) HC];
  in_trace HR; eapply HC; find_event.

(** Closes the case of an exit of lines 92-115, for a run in which none of
    the calls of these lines has failed. *)
Ltac nothing_fatal G1 G2 G3 :=
  exfalso;
  match goal with
  | R : relocated _ _ _ _ |- _ => inversion R; subst
  end;
  first [ eapply G1; find_event | eapply G2; find_event | eapply G3; find_event ].

Section Orchestrator.

Context {W : Type} {C : Collaborators W}.

(** C7.  On Windows ([runtime.GOOS] is ["windows"]) [runCleanup] returns the
    unsupported-platform error as its first action: the trace is empty (no
    name resolved, nothing validated, no context acquired, no file system, git
    or tmux call) and the world is the one it was called in. *)
Theorem windows_refused_first (args : list string) (w : W) :
  runtime_GOOS w = "windows" ->
  runCleanup args w
  = (Some (ErrMsg "cleanup command is not supported on Windows"), w, []).
Proof.
  intros H. unfold runCleanup, runCleanupM. rewrite H. reflexivity.
Qed.

(** C6.  Called without an argument, when git answers that the current
    directory is not in a worktree, [runCleanup] returns the not-in-worktree
    error, and that query is the only call it has made: nothing is
    validated, no path is built, nothing is removed and no window is closed. *)
Theorem not_in_worktree_stops (w : W) :
  In (Call_IsInWorktree false) (trace_of (runCleanup [] w)) ->
  error_of (runCleanup [] w)
  = Some (ErrWrap "failed to extract worktree name: " (ErrMsg "not in a worktree"))
  /\ trace_of (runCleanup [] w) = [Call_IsInWorktree false].
Proof.
  intros H. read_run (@nil string) w HS.
  invert_run HS; try (split; reflexivity); exfalso; in_trace H.
Qed.

(** C3.  When the name given as argument fails validation, [runCleanup]
    returns the invalid-name error at once: the validation is the only call it
    has made, so no worktree path is built ([filepath.Join] is not called) and
    no git, file system or tmux call is made. *)
Theorem invalid_name_stops (name : string) (rest : list string) (err : error) (w : W) :
  In (Call_ValidateWorktreeName name (Some err))
     (trace_of (runCleanup (name :: rest) w)) ->
  error_of (runCleanup (name :: rest) w)
  = Some (ErrWrap "invalid worktree name: " err)
  /\ trace_of (runCleanup (name :: rest) w)
     = [Call_ValidateWorktreeName name (Some err)].
Proof.
  intros H. read_run (name :: rest) w HS.
  invert_run HS; in_trace H.
  inversion H; subst. split; reflexivity.
Qed.

(** The same two early returns, read off the collaborators: on a platform
    other than Windows, the whole run when git answers that the process is
    in no worktree, and when the validator refuses the argument. *)
Lemma not_in_worktree_run (w w1 : W) :
  runtime_GOOS w <> "windows" ->
  git_IsInWorktree w = (false, w1) ->
  runCleanup [] w
  = (Some (ErrWrap "failed to extract worktree name: " (ErrMsg "not in a worktree")),
     w1, [Call_IsInWorktree false]).
Proof.
  intros Hos Hgit. apply String.eqb_neq in Hos.
  unfold runCleanup, runCleanupM. rewrite Hos.
  unfold resolveWorktreeName, extractWorkTreeName, bind, wrapping, call.
  rewrite Hgit. reflexivity.
Qed.

Lemma invalid_name_run (name : string) (rest : list string) (err : error) (w w1 : W) :
  runtime_GOOS w <> "windows" ->
  validation_ValidateWorktreeName name w = (Some err, w1) ->
  runCleanup (name :: rest) w
  = (Some (ErrWrap "invalid worktree name: " err), w1,
     [Call_ValidateWorktreeName name (Some err)]).
Proof.
  intros Hos Hbad. apply String.eqb_neq in Hos.
  unfold runCleanup, runCleanupM. rewrite Hos.
  unfold resolveWorktreeName, bind, call, ret. rewrite Hbad. reflexivity.
Qed.

(** The runs that reach the teardown steps are the runs that return [nil]:
    every early return stands before line 120. *)
Lemma reaches_teardown_iff_nil (args : list string) (w : W) :
  reaches_teardown (trace_of (runCleanup args w))
  <-> error_of (runCleanup args w) = None.
Proof.
  read_run args w HS. split.
  - intros [inTmux T].
    invert_run HS; try (exfalso; in_trace T; fail); reflexivity.
  - intros E. rewrite E in HS.
    invert_run HS;
      try match goal with
          | H : returned (Err _) = None |- _ => discriminate H
          end;
      match goal with
      | R : window_step _ _ |- _ => inversion R; subst
      end; eexists; find_event.
Qed.

(** The runs that enter the teardown steps are those in which the probe was
    made and none of [os.Getwd], [filepath.Abs] and [os.Chdir] (lines 92-115)
    has failed. *)
Lemma enters_teardown_iff_nothing_fatal (args : list string) (w : W) :
  enters_teardown (trace_of (runCleanup args w))
  <-> ((exists path statErr,
          In (Call_Stat path statErr) (trace_of (runCleanup args w)))
       /\ (forall e, ~ In (Call_Getwd (Err e)) (trace_of (runCleanup args w)))
       /\ (forall p e, ~ In (Call_Abs p (Err e)) (trace_of (runCleanup args w)))
       /\ (forall d e, ~ In (Call_Chdir d (Some e)) (trace_of (runCleanup args w)))).
Proof.
  read_run args w HS. split.
  - intros H.
    invert_run HS; try (before_teardown H; fail); destruct H as [_ HC].
    all: split; [do 2 eexists; unfold probe_events; find_event|].
    all: split; [intros e K; in_trace K|].
    all: split; [intros p e K; in_trace K|exact HC].
  - intros ((path & statErr & H) & G1 & G2 & G3).
    invert_run HS; in_trace H; try (nothing_fatal G1 G2 G3; fail).
    all: split; [|exact G3].
    all: match goal with
         | R : relocated _ _ _ _ |- _ => inversion R; subst
         end; do 3 eexists; find_event.
Qed.

(** C4.  A run that enters the teardown steps (line 120) returns [nil],
    goes through the window step and ends with the line [Cleanup complete!]
    (followed only by the deferred release of the context), whatever the
    removal of the worktree, the removal of the directory, the lookup of the
    repository name and the closing of the window returned: each of their
    failures is directly followed by its warning line, and the run goes on
    to the step that stands next in the text. *)
Theorem teardown_completes (args : list string) (w : W) :
  enters_teardown (trace_of (runCleanup args w)) ->
  error_of (runCleanup args w) = None
  /\ reaches_teardown (trace_of (runCleanup args w))
  /\ (exists pre ctx,
        trace_of (runCleanup args w)
        = (pre ++ [Stdout ("Cleanup complete!" ++ nl); Call_cleanup ctx])%list)
  /\ (forall ctx path err,
        In (Call_RemoveWorktreeWithContext ctx path (Some err))
           (trace_of (runCleanup args w)) ->
        next_to (Call_RemoveWorktreeWithContext ctx path (Some err))
                (Stdout ("Warning: Failed to remove worktree: " ++ Error err ++ nl))
                (trace_of (runCleanup args w))
        /\ exists rmErr,
            precedes (Call_RemoveWorktreeWithContext ctx path (Some err))
                     (Call_RemoveAll path rmErr)
                     (trace_of (runCleanup args w)))
  /\ (forall path err,
        In (Call_RemoveAll path (Some err)) (trace_of (runCleanup args w)) ->
        next_to (Call_RemoveAll path (Some err))
                (Stdout ("Warning: Failed to remove worktree directory: "
                         ++ Error err ++ nl))
                (trace_of (runCleanup args w))
        /\ exists inTmux,
            precedes (Call_RemoveAll path (Some err)) (Call_IsInTmux inTmux)
                     (trace_of (runCleanup args w)))
  /\ (forall err,
        In (Call_GetRepoName (Err err)) (trace_of (runCleanup args w)) ->
        next_to (Call_GetRepoName (Err err))
                (Stdout ("Warning: Failed to get repository name: "
                         ++ Error err ++ nl))
                (trace_of (runCleanup args w))
        /\ exists windowName worktreeName r,
            precedes (Call_GetRepoName (Err err))
                     (Call_CloseWindow windowName worktreeName r)
                     (trace_of (runCleanup args w)))
  /\ (forall windowName worktreeName err,
        In (Call_CloseWindow windowName worktreeName (Some err))
           (trace_of (runCleanup args w)) ->
        next_to (Call_CloseWindow windowName worktreeName (Some err))
                (Stdout ("Warning: " ++ Error err ++ nl))
                (trace_of (runCleanup args w))
        /\ precedes (Call_CloseWindow windowName worktreeName (Some err))
                    (Stdout ("Cleanup complete!" ++ nl))
                    (trace_of (runCleanup args w))).
Proof.
  intros H. read_run args w HS.
  invert_run HS; try (before_teardown H; fail); clear H.
  all: split; [reflexivity|].
  all: split;
    [match goal with
     | R : window_step _ _ |- _ => inversion R; subst
     end; eexists; find_event|].
  all: split; [complete_prefix|].
  all: split;
    [intros ctx0 path err K; in_trace K; inversion K; subst; show_shapes;
     (split; [find_next|eexists; find_before])|].
  all: split;
    [intros path err K; in_trace K; inversion K; subst; show_shapes;
     (split; [find_next|]);
     match goal with
     | R : window_step _ _ |- _ => inversion R; subst
     end; eexists; find_before|].
  all: split;
    [intros err K; in_trace K; inversion K; subst; show_shapes;
     (split; [find_next|do 3 eexists; find_before])|].
  all: intros windowName worktreeName0 err K; in_trace K; inversion K; subst;
    show_shapes; (split; [find_next|find_apart]).
Qed.

(** C5.  When the existence probe finds the worktree path absent, git is
    not asked to remove the worktree; the absence is reported by a warning
    line right after the probe and the run goes on to the next step; when it
    then finds itself inside tmux, it asks for the window to be closed; and
    unless a later step ([os.Getwd], [filepath.Abs], [os.Chdir]) fails, the
    run reaches the teardown steps and returns [nil]. *)
Theorem absent_worktree_not_fatal (args : list string) (w : W)
                                  (path : string) (statErr : option error) :
  In (Call_Stat path statErr) (trace_of (runCleanup args w)) ->
  os_IsNotExist statErr = true ->
  (forall ctx p r,
      ~ In (Call_RemoveWorktreeWithContext ctx p r) (trace_of (runCleanup args w)))
  /\ (exists name,
        In (Call_ValidateWorktreeName name None) (trace_of (runCleanup args w)) /\
        next_to (Call_Stat path statErr)
                (Stdout ("Warning: Worktree .koh/" ++ name ++ " not found" ++ nl))
                (trace_of (runCleanup args w)))
  /\ (exists r, In (Call_Getwd r) (trace_of (runCleanup args w)))
  /\ (In (Call_IsInTmux true) (trace_of (runCleanup args w)) ->
      exists windowName name r,
        In (Call_CloseWindow windowName name r) (trace_of (runCleanup args w)))
  /\ ((forall e, ~ In (Call_Getwd (Err e)) (trace_of (runCleanup args w))) ->
      (forall p e, ~ In (Call_Abs p (Err e)) (trace_of (runCleanup args w))) ->
      (forall d e, ~ In (Call_Chdir d (Some e)) (trace_of (runCleanup args w))) ->
      error_of (runCleanup args w) = None /\
      reaches_teardown (trace_of (runCleanup args w))).
Proof.
  intros H Habsent. read_run args w HS.
  invert_run HS; in_trace H; inversion H; subst; try congruence; clear H.
  all: split; [intros c p r K; in_trace K|].
  all: split; [eexists; split; [find_event | show_shapes; find_next]|].
  all: split;
    [match goal with
     | R : relocated _ _ _ _ |- _ => inversion R; subst
     end; eexists; find_event|].
  all: split; [intros K; in_trace K; do 3 eexists; find_event|].
  all: intros G1 G2 G3.
  all: try (split;
            [reflexivity
            |match goal with
             | R : window_step _ _ |- _ => inversion R; subst
             end; eexists; find_event]).
  all: exfalso;
    match goal with
    | R : relocated _ _ _ _ |- _ => inversion R; subst
    end;
    first [ eapply G1; find_event | eapply G2; find_event | eapply G3; find_event ].
Qed.

(** C8.  Every call that closes a tmux window passes, as window name, the
    repository name, a [|] and the validated worktree name, in that order,
    and the worktree name as second argument; when the lookup of the
    repository name failed the repository name is empty, the window name is
    [|] followed by the worktree name, and the window is still asked to be
    closed. *)
Theorem window_name_format (args : list string) (w : W) :
  (forall windowName name r,
      In (Call_CloseWindow windowName name r) (trace_of (runCleanup args w)) ->
      In (Call_ValidateWorktreeName name None) (trace_of (runCleanup args w)) /\
      ((exists repoName,
           In (Call_GetRepoName (Ok repoName)) (trace_of (runCleanup args w)) /\
           windowName = repoName ++ "|" ++ name) \/
       (exists err,
           In (Call_GetRepoName (Err err)) (trace_of (runCleanup args w)) /\
           windowName = "|" ++ name)))
  /\ (forall err,
        In (Call_GetRepoName (Err err)) (trace_of (runCleanup args w)) ->
        exists name r,
          In (Call_ValidateWorktreeName name None) (trace_of (runCleanup args w)) /\
          In (Call_CloseWindow ("|" ++ name) name r) (trace_of (runCleanup args w))).
Proof.
  read_run args w HS. split.
  - intros windowName name r K.
    invert_run HS; in_trace K; inversion K; subst;
      (split; [find_event|]);
      match goal with
      | |- context [windowName_of ?repoName _] =>
          destruct repoName; [left|right]
      end;
      eexists; (split; [find_event|reflexivity]).
  - intros err K.
    invert_run HS; in_trace K; inversion K; subst;
      do 2 eexists; (split; [find_event|]); show_shapes; find_event.
Qed.

(** C10.  When [os.Stat] on the worktree path fails with an error that is
    not a not-exist error (a permission error, say), the worktree counts as
    existing: unless [os.Getwd], [filepath.Abs] or [os.Chdir] (lines 92-115)
    fails, the run asks git, after the probe, to remove the worktree at that
    path and then, whatever git answered, calls [os.RemoveAll] on it; nothing
    is said of a worktree not found, and the run returns [nil]. *)
Theorem stat_failure_counts_as_present (args : list string) (w : W)
                                       (path : string) (err : error) :
  In (Call_Stat path (Some err)) (trace_of (runCleanup args w)) ->
  os_IsNotExist (Some err) = false ->
  (forall e, ~ In (Call_Getwd (Err e)) (trace_of (runCleanup args w))) ->
  (forall p e, ~ In (Call_Abs p (Err e)) (trace_of (runCleanup args w))) ->
  (forall d e, ~ In (Call_Chdir d (Some e)) (trace_of (runCleanup args w))) ->
  (exists ctx gitErr rmErr,
      precedes (Call_Stat path (Some err))
               (Call_RemoveWorktreeWithContext ctx path gitErr)
               (trace_of (runCleanup args w)) /\
      precedes (Call_RemoveWorktreeWithContext ctx path gitErr)
               (Call_RemoveAll path rmErr)
               (trace_of (runCleanup args w)))
  /\ ~ In (Stdout ("Will attempt to clean up tmux window only" ++ nl))
          (trace_of (runCleanup args w))
  /\ error_of (runCleanup args w) = None.
Proof.
  intros H Hpresent G1 G2 G3. read_run args w HS.
  invert_run HS; in_trace H; inversion H; subst; try congruence; clear H;
    try (nothing_fatal G1 G2 G3; fail).
  all: split; [do 3 eexists; split; show_shapes; find_before|].
  all: split; [|reflexivity].
  all: intros K; in_trace K;
    first [ congruence
          | repeat match type of K with
                   | context [match ?x with _ => _ end] => destruct x
                   end;
            apply (f_equal (fun ev => match ev with
                                      | Stdout line => String.get 1 line
                                      | _ => None
                                      end)) in K;
            vm_compute in K; discriminate K ].
Qed.

(** C2, as the code has it.  In a run that enters the teardown steps (line
    120), [os.RemoveAll] is called on the worktree path exactly when the
    existence probe did not find the path absent, and then after git was
    asked to remove the worktree, whatever git answered: a removal by git,
    failed or not, has [os.RemoveAll] after it; when the probe found the path
    absent, neither removal is attempted. *)
Theorem residual_removal_follows_probe (args : list string) (w : W)
                                       (path : string) (statErr : option error) :
  enters_teardown (trace_of (runCleanup args w)) ->
  In (Call_Stat path statErr) (trace_of (runCleanup args w)) ->
  ((exists rmErr, In (Call_RemoveAll path rmErr) (trace_of (runCleanup args w)))
   <-> os_IsNotExist statErr = false)
  /\ (forall p rmErr,
        In (Call_RemoveAll p rmErr) (trace_of (runCleanup args w)) ->
        p = path /\
        exists ctx gitErr,
          precedes (Call_RemoveWorktreeWithContext ctx path gitErr)
                   (Call_RemoveAll path rmErr)
                   (trace_of (runCleanup args w)))
  /\ (forall ctx p gitErr,
        In (Call_RemoveWorktreeWithContext ctx p gitErr)
           (trace_of (runCleanup args w)) ->
        p = path /\ os_IsNotExist statErr = false /\
        exists rmErr,
          precedes (Call_RemoveWorktreeWithContext ctx path gitErr)
                   (Call_RemoveAll path rmErr)
                   (trace_of (runCleanup args w)))
  /\ (os_IsNotExist statErr = true ->
      forall ev, In ev (trace_of (runCleanup args w)) -> is_removal ev = false).
Proof.
  intros T H. read_run args w HS.
  invert_run HS; try (before_teardown T; fail); clear T;
    in_trace H; inversion H; subst; clear H.
  all: split; [split|split; [|split]].
  all: try (intros [rmErr' K]; in_trace K; congruence).
  all: try (intros E; first [congruence | eexists; show_shapes; find_event]).
  all: try (intros p rmErr' K; in_trace K; inversion K; subst;
            (split; [reflexivity|]); do 2 eexists; show_shapes; find_before).
  all: try (intros ctx' p gitErr' K; in_trace K; inversion K; subst;
            (split; [reflexivity|]); (split; [assumption|]);
            eexists; show_shapes; find_before).
  all: intros E ev K; try congruence; in_trace K; subst; reflexivity.
Qed.

Lemma removal_waits_for_sound (P : Event -> Prop) (t : Trace) :
  (forall ev, P ev -> is_removal ev = false) ->
  removal_waits_for P t ->
  forall pre ev post,
    t = (pre ++ ev :: post)%list -> is_removal ev = true ->
    exists done, In done pre /\ P done.
Proof.
  intros HP. induction 1 as [|ev0 rest H0|ev0 rest Hno _ IH];
    intros pre ev post E Hev.
  - destruct pre; discriminate E.
  - destruct pre as [|x pre]; inversion E; subst.
    + apply HP in H0. congruence.
    + exists x. split; [left; reflexivity|exact H0].
  - destruct pre as [|x pre]; inversion E; subst.
    + congruence.
    + destruct (IH pre ev post eq_refl Hev) as (done & Hin & Hd).
      exists done. split; [right; exact Hin|exact Hd].
Qed.

(** Shows that the removal calls of a trace built from the shapes wait for
    the event of the goal. *)
Ltac waits :=
  repeat first [ apply waits_nil
               | apply waits_done; reflexivity
               | apply waits_on; [reflexivity|] ].

Lemma parent_escape_not_inside (rel : result string) :
  parent_escape rel -> isInTargetWorktree rel = false.
Proof.
  destruct rel as [rel|err]; simpl; intros H; [rewrite H|]; reflexivity.
Qed.

(** The recorded result of [filepath.Rel] is the one of the function. *)
Lemma Call_Rel_result (args : list string) (w : W)
                      (basepath targpath : string) (rel : result string) :
  In (Call_Rel basepath targpath rel) (trace_of (runCleanup args w)) ->
  rel = filepath.Rel basepath targpath.
Proof.
  intros K. read_run args w HS.
  invert_run HS; in_trace K; inversion K; subst; reflexivity.
Qed.

(** What a run leaves once line 109 has come out one way or the other. *)
Lemma after_line_109 (args : list string) (w : W)
                     (basepath targpath : string) (rel : result string) :
  In (Call_Rel basepath targpath rel) (trace_of (runCleanup args w)) ->
  if isInTargetWorktree rel
  then exists mainRepoRoot,
      In (Call_GetMainRepoRoot (Ok mainRepoRoot)) (trace_of (runCleanup args w)) /\
      removal_waits_for (eq (Call_Chdir mainRepoRoot None))
                        (trace_of (runCleanup args w))
  else forall dir r, ~ In (Call_Chdir dir r) (trace_of (runCleanup args w)).
Proof.
  intros K. read_run args w HS.
  invert_run HS; in_trace K; inversion K; subst;
    match goal with
    | I : isInTargetWorktree _ = _ |- _ => rewrite I
    end;
    first [ intros dir r KC; clear K; in_trace KC
          | eexists; (split; [find_event|]);
            unfold probe_events; destruct (os_IsNotExist statErr);
            cbn [app]; waits ].
Qed.

(** C9.  When the current directory is outside the worktree path, that is
    when the relative path from the absolute worktree path to the absolute
    current directory begins with [..] (or cannot be computed), which is the
    case whenever the elements of the first are not the leading elements of
    the second, [os.Chdir] is not called during the run. *)
Theorem outside_target_no_chdir (args : list string) (w : W)
                                (basepath targpath : string) (rel : result string) :
  In (Call_Rel basepath targpath rel) (trace_of (runCleanup args w)) ->
  parent_escape rel \/ outside_of basepath targpath ->
  forall dir r, ~ In (Call_Chdir dir r) (trace_of (runCleanup args w)).
Proof.
  intros K Hout.
  pose proof (Call_Rel_result args w basepath targpath rel K) as E.
  pose proof (after_line_109 args w basepath targpath rel K) as H.
  assert (Hstay : isInTargetWorktree rel = false).
  { apply parent_escape_not_inside. destruct Hout as [Hout|Hout]; [exact Hout|].
    rewrite E. apply PathFacts.Rel_outside. exact Hout. }
  rewrite Hstay in H. exact H.
Qed.

(** X1, beside C1: what the code does.  When line 109 takes the current
    directory for inside the worktree path (the relative path does not begin
    with [..]), which is the case whenever the current directory is the
    worktree path or a directory under it and the first element below the
    worktree path does not begin with two dots, every removal call of the run
    (git worktree removal and [os.RemoveAll]) has before it a successful
    [os.Chdir] to the main repository root. *)
Theorem inside_target_chdir_first (args : list string) (w : W)
                                  (basepath targpath : string) (rel : result string) :
  In (Call_Rel basepath targpath rel) (trace_of (runCleanup args w)) ->
  isInTargetWorktree rel = true \/ plainly_under basepath targpath ->
  forall pre ev post,
    trace_of (runCleanup args w) = (pre ++ ev :: post)%list ->
    is_removal ev = true ->
    exists mainRepoRoot,
      In (Call_GetMainRepoRoot (Ok mainRepoRoot)) (trace_of (runCleanup args w)) /\
      In (Call_Chdir mainRepoRoot None) pre.
Proof.
  intros K Hin pre ev post Epre Hev.
  pose proof (Call_Rel_result args w basepath targpath rel K) as E.
  pose proof (after_line_109 args w basepath targpath rel K) as H.
  assert (Hgo : isInTargetWorktree rel = true).
  { destruct Hin as [Hin|Hin]; [exact Hin|].
    rewrite E. apply PathFacts.Rel_plainly_under. exact Hin. }
  rewrite Hgo in H. destruct H as (mainRepoRoot & Hroot & Hwait).
  exists mainRepoRoot. split; [exact Hroot|].
  assert (HP : forall e, Call_Chdir mainRepoRoot None = e -> is_removal e = false)
    by (intros ? <-; reflexivity).
  destruct (removal_waits_for_sound _ _ HP Hwait pre ev post Epre Hev)
    as (done & Hdone & <-).
  exact Hdone.
Qed.

End Orchestrator.

(** ** The steps, the exits and the target of a run *)

Section Steps.

Context {W : Type} {C : Collaborators W}.

(** Takes every shape of the trace in the goal down to its events. *)
Ltac open_shapes :=
  repeat match goal with
         | R : relocated _ _ _ _ |- _ => inversion R; subst; clear R
         | R : window_step _ _ |- _ => inversion R; subst; clear R
         end;
  unfold probe_events, removal_events;
  repeat match goal with
         | |- context [os_IsNotExist ?e] => destruct (os_IsNotExist e)
         | |- context [match ?r with Ok _ => _ | Err _ => _ end] => destruct r
         | |- context [match ?r with Some _ => _ | None => _ end] => destruct r
         end;
  cbn [negb app].

Lemma steps_ascend_sound (t : Trace) :
  forall last,
    steps_ascend last t = true ->
    (forall ev, In ev t -> step ev <> 0 -> may_follow last (step ev)) /\
    (forall e1 e2,
        precedes e1 e2 t -> step e1 <> 0 -> step e2 <> 0 ->
        may_follow (step e1) (step e2)).
Proof.
  unfold may_follow, step_of_Abs.
  induction t as [|ev rest IH]; intros last H.
  - split.
    + intros ev [].
    + intros e1 e2 (pre & post & E & _). destruct pre; discriminate E.
  - cbn [steps_ascend] in H. destruct (Nat.eqb (step ev) 0) eqn:Hz.
    + apply Nat.eqb_eq in Hz. destruct (IH last H) as [IH1 IH2]. split.
      * intros e [<-|Hin] Hcall; [congruence|]. apply IH1; assumption.
      * intros e1 e2 (pre & post & E & Hin) H1 H2.
        destruct pre as [|x pre]; [destruct Hin|].
        inversion E; subst x.
        destruct Hin as [<-|Hin]; [congruence|].
        apply IH2; try assumption. exists pre, post. split; assumption.
    + apply Nat.eqb_neq in Hz. apply andb_prop in H. destruct H as [Hhere Hrest].
      destruct (IH (step ev) Hrest) as [IH1 IH2].
      assert (Hev : last < step ev \/ (last = 10 /\ step ev = 10)).
      { apply orb_prop in Hhere. destruct Hhere as [Hlt|Heq].
        - left. apply Nat.ltb_lt. exact Hlt.
        - right. apply andb_prop in Heq. destruct Heq as [Ha Hb].
          apply Nat.eqb_eq in Ha, Hb. split; assumption. }
      split.
      * intros e [<-|Hin] Hcall; [exact Hev|].
        specialize (IH1 e Hin Hcall). lia.
      * intros e1 e2 (pre & post & E & Hin) H1 H2.
        destruct pre as [|x pre]; [destruct Hin|].
        inversion E; subst x.
        destruct Hin as [<-|Hin].
        -- apply IH1; [|assumption]. subst rest.
           apply in_or_app. right. left. reflexivity.
        -- apply IH2; try assumption. exists pre, post. split; assumption.
Qed.

Lemma runCleanup_steps_ascend (args : list string) (w : W) :
  steps_ascend 0 (trace_of (runCleanup args w)) = true.
Proof.
  read_run args w HS.
  invert_run HS; open_shapes; reflexivity.
Qed.

(** X10.  The calls of a run are made in the order of the text of
    [runCleanup]: of two calls, the one that comes first in the trace stands
    at an earlier step (the name is resolved, then validated, the context is
    acquired, the root is asked for, the path is built and probed, the
    working directory is read and compared, then changed, the worktree is
    removed, then its directory, then the window is closed, and the context
    is released last), the two calls of [filepath.Abs] apart. *)
Theorem calls_in_text_order (args : list string) (w : W) (e1 e2 : Event) :
  precedes e1 e2 (trace_of (runCleanup args w)) ->
  step e1 <> 0 -> step e2 <> 0 ->
  step e1 < step e2 \/ (step e1 = step_of_Abs /\ step e2 = step_of_Abs).
Proof.
  intros H H1 H2.
  exact (proj2 (steps_ascend_sound _ 0 (runCleanup_steps_ascend args w))
               e1 e2 H H1 H2).
Qed.

(** X11.  No function is called twice in a run, [filepath.Abs] apart: two
    events of the trace at the same step are printed lines or calls of
    [filepath.Abs]. *)
Theorem no_call_twice (args : list string) (w : W)
                      (l1 l2 l3 : Trace) (e e' : Event) :
  trace_of (runCleanup args w) = (l1 ++ e :: l2 ++ e' :: l3)%list ->
  step e = step e' ->
  step e = 0 \/ step e = step_of_Abs.
Proof.
  intros E Hsame.
  destruct (Nat.eq_dec (step e) 0) as [Hz|Hz]; [left; exact Hz|right].
  assert (P : precedes e e' (trace_of (runCleanup args w))).
  { exists (l1 ++ e :: l2)%list, l3. split.
    - rewrite E, <- app_assoc. reflexivity.
    - apply in_or_app. right. left. reflexivity. }
  destruct (proj2 (steps_ascend_sound _ 0 (runCleanup_steps_ascend args w))
                  e e' P Hz ltac:(congruence)) as [Hlt|[Ha _]].
  - lia.
  - exact Ha.
Qed.

End Steps.

Section Exits.

Context {W : Type} {C : Collaborators W}.

(** X3.  The deferred release: a run that acquires the cancellation context
    releases it, that very context, as its last action, on every way out
    (with an error or with [nil]), and only once; a run that has not
    acquired a context releases none. *)
Theorem release_is_last (args : list string) (w : W) (ctx : Context) :
  In (Call_SetupCancellableContext ctx) (trace_of (runCleanup args w))
  \/ In (Call_cleanup ctx) (trace_of (runCleanup args w)) ->
  exists pre,
    trace_of (runCleanup args w) = (pre ++ [Call_cleanup ctx])%list /\
    In (Call_SetupCancellableContext ctx) pre /\
    (forall c, ~ In (Call_cleanup c) pre) /\
    (forall c, In (Call_SetupCancellableContext c) pre -> c = ctx).
Proof.
  intros H. read_run args w HS.
  inversion HS as [|err t Hres|name t err Hres|name t t' c r Hres Hbody];
    subst; clear HS.
  - destruct H as [H|H]; destruct H.
  - exfalso. inversion Hres; subst; destruct H as [H|H]; in_trace H.
  - exfalso. inversion Hres; subst; destruct H as [H|H]; in_trace H.
  - assert (E : c = ctx).
    { inversion Hres; subst; inversion Hbody; subst;
        destruct H as [H|H]; in_trace H; inversion H; reflexivity. }
    subst c. clear H.
    exists (t ++ [Call_ValidateWorktreeName name None;
                  Call_SetupCancellableContext ctx] ++ t')%list.
    split; [repeat rewrite <- app_assoc; reflexivity|].
    split; [inversion Hres; subst; find_event|].
    split.
    + intros c K. inversion Hres; subst; inversion Hbody; subst; in_trace K.
    + intros c K. inversion Hres; subst; inversion Hbody; subst; in_trace K;
        inversion K; reflexivity.
Qed.

(** X4.  A run that returns an error has removed nothing and closed no
    window: every early return of [runCleanup], the failed change of
    directory included, stands before the removal of the worktree. *)
Theorem error_means_nothing_removed (args : list string) (w : W) (err : error) :
  error_of (runCleanup args w) = Some err ->
  (forall ev, In ev (trace_of (runCleanup args w)) -> is_removal ev = false)
  /\ (forall windowName name r,
        ~ In (Call_CloseWindow windowName name r) (trace_of (runCleanup args w))).
Proof.
  intros E. read_run args w HS. rewrite E in HS. split.
  - intros ev K.
    invert_run HS;
      try match goal with
          | H : returned (Ok _) = Some _ |- _ => discriminate H
          end;
      in_trace K; subst; reflexivity.
  - intros windowName name r K.
    invert_run HS;
      try match goal with
          | H : returned (Ok _) = Some _ |- _ => discriminate H
          end;
      in_trace K.
Qed.

(** X12.  Called without an argument, when git says the process is in a
    worktree but cannot tell its path, [runCleanup] returns that error,
    wrapped twice, and the two queries are the only calls it has made. *)
Theorem worktree_path_failure_stops (args : list string) (w : W) (cause : error) :
  In (Call_GetCurrentWorktreePath (Err cause)) (trace_of (runCleanup args w)) ->
  args = []
  /\ error_of (runCleanup args w)
     = Some (ErrWrap "failed to extract worktree name: "
               (ErrWrap "failed to get current worktree path: " cause))
  /\ trace_of (runCleanup args w)
     = [Call_IsInWorktree true; Call_GetCurrentWorktreePath (Err cause)].
Proof.
  intros K. read_run args w HS.
  invert_run HS; in_trace K; inversion K; subst; repeat split.
Qed.

(** X9.  Outside tmux the window step does nothing but say so: git is not
    asked for the repository name, no window is closed, the line
    [Not in a tmux session, skipping tmux cleanup] is printed, and the final
    notice follows at once; the run returns [nil]. *)
Theorem no_session_no_window_calls (args : list string) (w : W) :
  In (Call_IsInTmux false) (trace_of (runCleanup args w)) ->
  (forall r, ~ In (Call_GetRepoName r) (trace_of (runCleanup args w)))
  /\ (forall windowName name r,
        ~ In (Call_CloseWindow windowName name r) (trace_of (runCleanup args w)))
  /\ next_to (Call_IsInTmux false)
             (Stdout ("Not in a tmux session, skipping tmux cleanup" ++ nl))
             (trace_of (runCleanup args w))
  /\ next_to (Stdout ("Not in a tmux session, skipping tmux cleanup" ++ nl))
             (Stdout ("Cleanup complete!" ++ nl))
             (trace_of (runCleanup args w))
  /\ error_of (runCleanup args w) = None.
Proof.
  intros K. read_run args w HS.
  invert_run HS; in_trace K; inversion K; subst; clear K.
  all: split; [intros r K; in_trace K|].
  all: split; [intros windowName name r K; in_trace K|].
  all: split; [show_shapes; find_next|].
  all: split; [show_shapes; find_next|reflexivity].
Qed.

End Exits.

Section Targets.

Context {W : Type} {C : Collaborators W}.

Lemma root_asked_once (args : list string) (w : W) (r1 r2 : result string) :
  In (Call_GetMainRepoRoot r1) (trace_of (runCleanup args w)) ->
  In (Call_GetMainRepoRoot r2) (trace_of (runCleanup args w)) ->
  r1 = r2.
Proof.
  intros K1 K2. read_run args w HS.
  invert_run HS; in_trace K1; in_trace K2; congruence.
Qed.

Lemma validated_once (args : list string) (w : W)
                     (n1 n2 : string) (r1 r2 : option error) :
  In (Call_ValidateWorktreeName n1 r1) (trace_of (runCleanup args w)) ->
  In (Call_ValidateWorktreeName n2 r2) (trace_of (runCleanup args w)) ->
  n1 = n2 /\ r1 = r2.
Proof.
  intros K1 K2. read_run args w HS.
  invert_run HS; in_trace K1; in_trace K2; split; congruence.
Qed.

(** Where the path of a probe or of a removal comes from. *)
Lemma target_shape (args : list string) (w : W) (ev : Event) (path : string) :
  In ev (trace_of (runCleanup args w)) ->
  target_of ev = Some path ->
  exists mainRepoRoot name ctx,
    In (Call_GetMainRepoRoot (Ok mainRepoRoot)) (trace_of (runCleanup args w)) /\
    In (Call_SetupCancellableContext ctx) (trace_of (runCleanup args w)) /\
    precedes (Call_ValidateWorktreeName name None) ev
             (trace_of (runCleanup args w)) /\
    precedes (Call_Join [mainRepoRoot; ".koh"; name] path) ev
             (trace_of (runCleanup args w)) /\
    path = filepath.Join [mainRepoRoot; ".koh"; name] /\
    (forall c p r, ev = Call_RemoveWorktreeWithContext c p r -> c = ctx).
Proof.
  intros K T. read_run args w HS.
  invert_run HS; in_trace K; subst; try discriminate T;
    injection T as <-;
    do 3 eexists;
    (split; [find_event|]); (split; [find_event|]);
    (split; [show_shapes; find_before|]);
    (split; [show_shapes; find_before|]);
    (split; [reflexivity|]);
    intros c p r E; try discriminate E; injection E as <- _ _; reflexivity.
Qed.

(** X5.  One target: every path that a run probes ([os.Stat]) or removes
    ([git.RemoveWorktreeWithContext], [os.RemoveAll]) is the same path,
    built once by [filepath.Join] from the answer of [git.GetMainRepoRoot],
    [.koh] and the worktree name, after that name has passed validation; and
    git is handed the context the run acquired. *)
Theorem one_target_path (args : list string) (w : W) (ev : Event) (path : string) :
  In ev (trace_of (runCleanup args w)) ->
  target_of ev = Some path ->
  exists mainRepoRoot name,
    In (Call_GetMainRepoRoot (Ok mainRepoRoot)) (trace_of (runCleanup args w)) /\
    precedes (Call_ValidateWorktreeName name None) ev
             (trace_of (runCleanup args w)) /\
    precedes (Call_Join [mainRepoRoot; ".koh"; name] path) ev
             (trace_of (runCleanup args w)) /\
    path = filepath.Join [mainRepoRoot; ".koh"; name] /\
    (forall ev' path',
        In ev' (trace_of (runCleanup args w)) ->
        target_of ev' = Some path' -> path' = path) /\
    (forall ctx p r,
        ev = Call_RemoveWorktreeWithContext ctx p r ->
        In (Call_SetupCancellableContext ctx) (trace_of (runCleanup args w))).
Proof.
  intros K T.
  destruct (target_shape args w ev path K T)
    as (root & name & ctx & Hroot & Hctx & Hval & Hjoin & Hpath & Hgit).
  exists root, name.
  split; [exact Hroot|]. split; [exact Hval|]. split; [exact Hjoin|].
  split; [exact Hpath|]. split.
  - intros ev' path' K' T'.
    destruct (target_shape args w ev' path' K' T')
      as (root' & name' & _ & Hroot' & _ & Hval' & _ & Hpath' & _).
    pose proof (root_asked_once args w _ _ Hroot Hroot') as E1.
    destruct Hval as (pre & post & E & Hin).
    destruct Hval' as (pre' & post' & E' & Hin').
    assert (E2 : name = name').
    { apply (validated_once args w name name' None None).
      - rewrite E. apply in_or_app. left. exact Hin.
      - rewrite E'. apply in_or_app. left. exact Hin'. }
    inversion E1. subst. reflexivity.
  - intros c p r E. rewrite (Hgit c p r E). exact Hctx.
Qed.

(** X6.  With a cleaned absolute repository root and a name that is a plain
    path element (what validation is there to ensure), the path probed and
    removed is the root followed by [.koh] and the name: a directory
    directly under the [.koh] directory of the main repository. *)
Theorem target_is_child_of_koh (args : list string) (w : W)
                               (rs : list string) (name : string)
                               (ev : Event) (path : string) :
  Forall plain rs -> plain name ->
  In (Call_GetMainRepoRoot (Ok (rooted rs))) (trace_of (runCleanup args w)) ->
  In (Call_ValidateWorktreeName name None) (trace_of (runCleanup args w)) ->
  In ev (trace_of (runCleanup args w)) ->
  target_of ev = Some path ->
  path = rooted (rs ++ [".koh"; name]).
Proof.
  intros Hrs Hname Hroot Hval K T.
  destruct (target_shape args w ev path K T)
    as (root' & name' & _ & Hroot' & _ & Hval' & _ & Hpath & _).
  pose proof (root_asked_once args w _ _ Hroot Hroot') as E1.
  destruct Hval' as (pre' & post' & E' & Hin').
  assert (E2 : name = name').
  { apply (validated_once args w name name' None None); [exact Hval|].
    rewrite E'. apply in_or_app. left. exact Hin'. }
  inversion E1. subst.
  apply TargetPaths.Join_rooted; assumption.
Qed.

(** X7.  Called without an argument from inside a worktree, [runCleanup]
    takes the last element of the path git gives for the current worktree as
    the name, says so, and validates that name.  When the current worktree
    lies under the [.koh] directory of the main repository, the path probed
    and removed is the path of the current worktree. *)
Theorem detected_worktree_is_cleaned (args : list string) (w : W)
                                     (currentPath : string) :
  In (Call_GetCurrentWorktreePath (Ok currentPath))
     (trace_of (runCleanup args w)) ->
  args = []
  /\ next_to (Call_Base currentPath (filepath.Base currentPath))
             (Stdout ("Detected current worktree: "
                      ++ filepath.Base currentPath ++ nl))
             (trace_of (runCleanup args w))
  /\ (exists r,
        next_to (Stdout ("Detected current worktree: "
                         ++ filepath.Base currentPath ++ nl))
                (Call_ValidateWorktreeName (filepath.Base currentPath) r)
                (trace_of (runCleanup args w)))
  /\ (forall rs name ev path,
        Forall plain rs -> plain name ->
        currentPath = rooted (rs ++ [".koh"; name]) ->
        In (Call_GetMainRepoRoot (Ok (rooted rs))) (trace_of (runCleanup args w)) ->
        In ev (trace_of (runCleanup args w)) ->
        target_of ev = Some path ->
        path = currentPath).
Proof.
  intros K.
  assert (A : args = []
              /\ next_to (Call_Base currentPath (filepath.Base currentPath))
                         (Stdout ("Detected current worktree: "
                                  ++ filepath.Base currentPath ++ nl))
                         (trace_of (runCleanup args w))
              /\ exists r,
                  next_to (Stdout ("Detected current worktree: "
                                   ++ filepath.Base currentPath ++ nl))
                          (Call_ValidateWorktreeName (filepath.Base currentPath) r)
                          (trace_of (runCleanup args w))).
  { read_run args w HS.
    invert_run HS; in_trace K; inversion K; subst;
      (split; [reflexivity|]); (split; [find_next|]);
      eexists; cbn [app]; find_next. }
  destruct A as (Hargs & Hsays & r & Hval).
  split; [exact Hargs|]. split; [exact Hsays|]. split; [exists r; exact Hval|].
  intros rs name ev path Hrs Hname -> Hroot Kev T.
  destruct (target_shape args w ev path Kev T)
    as (root' & name' & _ & Hroot' & _ & Hval' & _ & Hpath & _).
  pose proof (root_asked_once args w _ _ Hroot Hroot') as E1.
  assert (Hbase : filepath.Base (rooted (rs ++ [".koh"; name])) = name).
  { change (rs ++ [".koh"; name])%list with (rs ++ [".koh"] ++ [name])%list.
    rewrite app_assoc. apply TargetPaths.Base_rooted; [|exact Hname].
    apply Forall_app. split; [exact Hrs|].
    apply Forall_cons; [apply TargetPaths.plain_koh|apply Forall_nil]. }
  destruct Hval as (pre & post & E).
  destruct Hval' as (pre' & post' & E' & Hin').
  assert (E2 : filepath.Base (rooted (rs ++ [".koh"; name])) = name').
  { apply (validated_once args w _ name' r None).
    - rewrite E. apply in_or_app. right. right. left. reflexivity.
    - rewrite E'. apply in_or_app. left. exact Hin'. }
  rewrite Hbase in E2. inversion E1. subst.
  apply TargetPaths.Join_rooted; assumption.
Qed.

End Targets.

Section Errors.

Context {W : Type} {C : Collaborators W}.

(** X8.  The errors of [runCleanup]: it returns an error exactly when the
    platform is refused or one of eight calls has failed (the two queries of
    the name lookup, the validation, the lookup of the repository root,
    [os.Getwd], either [filepath.Abs], [os.Chdir]), and the error returned
    is the error of that call under the prefix of its step.  No failure of
    these calls is passed over, and no other failure is returned. *)
Theorem returned_errors_wrap_their_cause (args : list string) (w : W) (err : error) :
  error_of (runCleanup args w) = Some err
  <-> early_return (trace_of (runCleanup args w)) err.
Proof.
  read_run args w HS. split.
  - intros E. rewrite E in HS.
    invert_run HS;
      try match goal with
          | H : returned (Ok _) = Some _ |- _ => discriminate H
          end;
      repeat match goal with
             | H : returned (Err _) = Some _ |- _ =>
                 cbn [returned] in H; injection H as <-
             | R : relocated _ _ _ _ |- _ => inversion R; subst; clear R
             end;
      first [ apply unsupported_platform; reflexivity
            | apply not_in_worktree; find_event
            | apply no_worktree_path; find_event
            | eapply invalid_name; find_event
            | apply no_root; find_event
            | apply no_working_directory; find_event
            | eapply no_absolute_worktree_path; find_event
            | eapply no_absolute_path;
              [find_event|intros p q K; clear -K; in_trace K]
            | eapply no_change_of_directory; find_event ].
  - intros E.
    inversion E as [Ht|K|cause K|name cause K|cause K|cause K
                   |dir cause K Hnone|dir cur path cause K1 K|dir cause K];
      subst.
    + invert_run HS; try reflexivity;
        match goal with
        | H : _ = [] |- _ =>
            apply (f_equal (@length Event)) in H;
            repeat rewrite length_app in H; simpl in H; lia
        end.
    + invert_run HS; in_trace K; reflexivity.
    + invert_run HS; in_trace K; inversion K; subst; reflexivity.
    + invert_run HS; in_trace K; inversion K; subst; reflexivity.
    + invert_run HS; in_trace K; inversion K; subst; reflexivity.
    + invert_run HS; in_trace K; inversion K; subst; reflexivity.
    + invert_run HS; in_trace K; inversion K; subst;
        first [ reflexivity
              | exfalso; eapply Hnone; find_event ].
    + invert_run HS; in_trace K; inversion K; subst;
        first [ reflexivity | exfalso; clear -K1; in_trace K1 ].
    + invert_run HS; in_trace K; inversion K; subst; reflexivity.
Qed.

End Errors.

(** ** Concrete runs *)

Section Runs_of_the_scenario.

Import Scenario.

(** Decides membership in the trace of a concrete run. *)
Ltac in_run := vm_compute; repeat (try (left; reflexivity); right).

(** Refutes membership in the trace of a concrete run. *)
Ltac not_in_run K :=
  vm_compute in K;
  repeat (destruct K as [K|K]; [discriminate K|]); contradiction.

Example Clean_cleans :
  filepath.Clean "/repo//.koh/./x/../feat/" = "/repo/.koh/feat" /\
  filepath.Clean "a/../../b" = "../b" /\
  filepath.Clean "/.." = "/".
Proof. repeat split. Qed.

Example Join_joins :
  filepath.Join ["/repo"; ".koh"; "feat"] = "/repo/.koh/feat" /\
  filepath.Join ["/repo"; ".koh"; "../../etc"] = "/etc".
Proof. repeat split. Qed.

Example Base_of :
  filepath.Base "/repo/.koh/feat/" = "feat" /\ filepath.Base "///" = "/".
Proof. repeat split. Qed.

Example Rel_of :
  filepath.Rel "/repo/.koh/feat" "/repo/.koh/feat/src" = Ok "src" /\
  filepath.Rel "/repo/.koh/feat" "/repo" = Ok "../.." /\
  filepath.Rel "/repo/.koh/feat" "/repo/.koh/other/x" = Ok "../other/x" /\
  filepath.Rel "/repo/.koh/feat" "/repo/.koh/feat" = Ok "." /\
  filepath.Rel "/" "/a/b" = Ok "a/b" /\
  filepath.Rel "/a" "/" = Ok ".." /\
  filepath.Rel "../x" "y" = Err (filepath.relError "../x" "y") /\
  filepath.Rel "/a" "b" = Err (filepath.relError "/a" "b") /\
  filepath.Rel "/repo/.koh/feat" "/repo/.koh/feat/..cache" = Ok "..cache".
Proof. repeat split. Qed.

(** The scenario of the spec: the worktree exists, the process stands in the
    main repository inside tmux; the worktree and its directory are removed,
    the window is closed, the run completes. *)
Example feature_x_cleaned :
  runCleanup ["feature-x"] (repo_at "/src/myrepo")
  = (None,
     {| goos := "linux"; cwd := "/src/myrepo";
        dirs := ["/src"; "/src/myrepo"; "/src/myrepo/.koh"];
        noperm := []; root := "/src/myrepo"; worktree := None; locked := [];
        repo := Some "myrepo"; windows := Some ["myrepo|main"];
        released := [0] |},
     [Call_ValidateWorktreeName "feature-x" None;
      Call_SetupCancellableContext 0;
      Call_GetMainRepoRoot (Ok "/src/myrepo");
      Call_Join ["/src/myrepo"; ".koh"; "feature-x"] "/src/myrepo/.koh/feature-x";
      Call_Stat "/src/myrepo/.koh/feature-x" None;
      Call_Getwd (Ok "/src/myrepo");
      Call_Abs "/src/myrepo" (Ok "/src/myrepo");
      Call_Abs "/src/myrepo/.koh/feature-x" (Ok "/src/myrepo/.koh/feature-x");
      Call_Rel "/src/myrepo/.koh/feature-x" "/src/myrepo" (Ok "../..");
      Stdout ("Removing git worktree: .koh/feature-x" ++ nl);
      Call_RemoveWorktreeWithContext 0 "/src/myrepo/.koh/feature-x" None;
      Stdout ("Worktree removed successfully" ++ nl);
      Call_RemoveAll "/src/myrepo/.koh/feature-x" None;
      Call_IsInTmux true;
      Call_GetRepoName (Ok "myrepo");
      Call_CloseWindow "myrepo|feature-x" "feature-x" None;
      Stdout ("Tmux window closed (switched to previous window)" ++ nl);
      Stdout ("Cleanup complete!" ++ nl);
      Call_cleanup 0]).
Proof. vm_compute. reflexivity. Qed.

(** The process stands in a directory of the worktree: it moves to the main
    repository root before anything is removed. *)
Example leaves_the_worktree_first :
  trace_of (runCleanup [] (repo_at "/src/myrepo/.koh/feature-x/cmd"))
  = [Call_IsInWorktree true;
     Call_GetCurrentWorktreePath (Ok "/src/myrepo/.koh/feature-x");
     Call_Base "/src/myrepo/.koh/feature-x" "feature-x";
     Stdout ("Detected current worktree: feature-x" ++ nl);
     Call_ValidateWorktreeName "feature-x" None;
     Call_SetupCancellableContext 0;
     Call_GetMainRepoRoot (Ok "/src/myrepo");
     Call_Join ["/src/myrepo"; ".koh"; "feature-x"] "/src/myrepo/.koh/feature-x";
     Call_Stat "/src/myrepo/.koh/feature-x" None;
     Call_Getwd (Ok "/src/myrepo/.koh/feature-x/cmd");
     Call_Abs "/src/myrepo/.koh/feature-x/cmd" (Ok "/src/myrepo/.koh/feature-x/cmd");
     Call_Abs "/src/myrepo/.koh/feature-x" (Ok "/src/myrepo/.koh/feature-x");
     Call_Rel "/src/myrepo/.koh/feature-x" "/src/myrepo/.koh/feature-x/cmd" (Ok "cmd");
     Stdout ("Running from within target worktree, switching to parent repository..." ++ nl);
     Call_Chdir "/src/myrepo" None;
     Stdout ("Changed directory to: /src/myrepo" ++ nl);
     Stdout ("Removing git worktree: .koh/feature-x" ++ nl);
     Call_RemoveWorktreeWithContext 0 "/src/myrepo/.koh/feature-x" None;
     Stdout ("Worktree removed successfully" ++ nl);
     Call_RemoveAll "/src/myrepo/.koh/feature-x" None;
     Call_IsInTmux true;
     Call_GetRepoName (Ok "myrepo");
     Call_CloseWindow "myrepo|feature-x" "feature-x" None;
     Stdout ("Tmux window closed (switched to previous window)" ++ nl);
     Stdout ("Cleanup complete!" ++ nl);
     Call_cleanup 0].
Proof. vm_compute. reflexivity. Qed.

(** C1, at the input where the code fails it.  The process stands in
    [/src/myrepo/.koh/feature-x/..cache], a directory under the worktree path
    [/src/myrepo/.koh/feature-x] whose name begins with two dots.  The
    relative path is [..cache]; line 109 takes its first two characters for
    the parent-escape marker, so [os.Chdir] is not called, and both removal
    calls run while the process stands under the worktree path: when
    [runCleanup] returns, its working directory no longer exists. *)
Theorem dotdot_directory_not_left :
  nested_under "/src/myrepo/.koh/feature-x" "/src/myrepo/.koh/feature-x/..cache"
  = true
  /\ trace_of (runCleanup ["feature-x"]
                          (repo_at "/src/myrepo/.koh/feature-x/..cache"))
     = [Call_ValidateWorktreeName "feature-x" None;
        Call_SetupCancellableContext 0;
        Call_GetMainRepoRoot (Ok "/src/myrepo");
        Call_Join ["/src/myrepo"; ".koh"; "feature-x"] "/src/myrepo/.koh/feature-x";
        Call_Stat "/src/myrepo/.koh/feature-x" None;
        Call_Getwd (Ok "/src/myrepo/.koh/feature-x/..cache");
        Call_Abs "/src/myrepo/.koh/feature-x/..cache"
                 (Ok "/src/myrepo/.koh/feature-x/..cache");
        Call_Abs "/src/myrepo/.koh/feature-x" (Ok "/src/myrepo/.koh/feature-x");
        Call_Rel "/src/myrepo/.koh/feature-x" "/src/myrepo/.koh/feature-x/..cache"
                 (Ok "..cache");
        Stdout ("Removing git worktree: .koh/feature-x" ++ nl);
        Call_RemoveWorktreeWithContext 0 "/src/myrepo/.koh/feature-x" None;
        Stdout ("Worktree removed successfully" ++ nl);
        Call_RemoveAll "/src/myrepo/.koh/feature-x" None;
        Call_IsInTmux true;
        Call_GetRepoName (Ok "myrepo");
        Call_CloseWindow "myrepo|feature-x" "feature-x" None;
        Stdout ("Tmux window closed (switched to previous window)" ++ nl);
        Stdout ("Cleanup complete!" ++ nl);
        Call_cleanup 0]
  /\ (forall dir r,
        ~ In (Call_Chdir dir r)
             (trace_of (runCleanup ["feature-x"]
                                   (repo_at "/src/myrepo/.koh/feature-x/..cache"))))
  /\ cwd (world_of (runCleanup ["feature-x"]
                               (repo_at "/src/myrepo/.koh/feature-x/..cache")))
     = "/src/myrepo/.koh/feature-x/..cache"
  /\ mem "/src/myrepo/.koh/feature-x/..cache"
         (dirs (world_of (runCleanup ["feature-x"]
                                     (repo_at "/src/myrepo/.koh/feature-x/..cache"))))
     = false.
Proof.
  split; [reflexivity|]. split; [vm_compute; reflexivity|].
  split; [intros dir r K; not_in_run K|].
  split; vm_compute; reflexivity.
Qed.

(** C2 as stated fails: the worktree [gone] does not exist; the run enters
    the teardown steps and goes through them to the window step, and
    [os.RemoveAll] is never called. *)
Lemma absent_worktree_no_RemoveAll :
  enters_teardown (trace_of (runCleanup ["gone"] (repo_at "/src/myrepo")))
  /\ reaches_teardown (trace_of (runCleanup ["gone"] (repo_at "/src/myrepo")))
  /\ (forall path r,
        ~ In (Call_RemoveAll path r)
             (trace_of (runCleanup ["gone"] (repo_at "/src/myrepo")))).
Proof.
  split; [split|split].
  - exists "/src/myrepo/.koh/gone", "/src/myrepo", (Ok "../.."). in_run.
  - intros dir err K. not_in_run K.
  - exists true. in_run.
  - intros path r K. not_in_run K.
Qed.

(** *** The theorems at concrete runs *)

Lemma windows_refused_first_witness :
  runCleanup ["feature-x"] (on_windows (repo_at "/src/myrepo/.koh/feature-x"))
  = (Some (ErrMsg "cleanup command is not supported on Windows"),
     on_windows (repo_at "/src/myrepo/.koh/feature-x"), []).
Proof. apply windows_refused_first. reflexivity. Defined.

Lemma not_in_worktree_stops_witness :
  In (Call_IsInWorktree false) (trace_of (runCleanup [] (repo_at "/src/myrepo")))
  /\ error_of (runCleanup [] (repo_at "/src/myrepo"))
     = Some (ErrWrap "failed to extract worktree name: "
                     (ErrMsg "not in a worktree"))
  /\ trace_of (runCleanup [] (repo_at "/src/myrepo")) = [Call_IsInWorktree false].
Proof.
  assert (H : In (Call_IsInWorktree false)
                 (trace_of (runCleanup [] (repo_at "/src/myrepo")))) by in_run.
  split; [exact H|]. apply not_in_worktree_stops. exact H.
Defined.

Lemma invalid_name_stops_witness :
  In (Call_ValidateWorktreeName "../../etc"
        (Some (ErrMsg "worktree name cannot contain '..'")))
     (trace_of (runCleanup ["../../etc"] (repo_at "/src/myrepo")))
  /\ error_of (runCleanup ["../../etc"] (repo_at "/src/myrepo"))
     = Some (ErrWrap "invalid worktree name: "
                     (ErrMsg "worktree name cannot contain '..'"))
  /\ trace_of (runCleanup ["../../etc"] (repo_at "/src/myrepo"))
     = [Call_ValidateWorktreeName "../../etc"
          (Some (ErrMsg "worktree name cannot contain '..'"))].
Proof.
  assert (H : In (Call_ValidateWorktreeName "../../etc"
                    (Some (ErrMsg "worktree name cannot contain '..'")))
                 (trace_of (runCleanup ["../../etc"] (repo_at "/src/myrepo"))))
    by in_run.
  split; [exact H|]. apply invalid_name_stops. exact H.
Defined.

Lemma absent_worktree_not_fatal_witness :
  In (Call_Stat "/src/myrepo/.koh/gone"
        (Some (PathErrNotExist "stat /src/myrepo/.koh/gone: no such file or directory")))
     (trace_of (runCleanup ["gone"] (repo_at "/src/myrepo")))
  /\ os_IsNotExist
       (Some (PathErrNotExist "stat /src/myrepo/.koh/gone: no such file or directory"))
     = true
  /\ (forall ctx p r,
        ~ In (Call_RemoveWorktreeWithContext ctx p r)
             (trace_of (runCleanup ["gone"] (repo_at "/src/myrepo"))))
  /\ (exists windowName name r,
        In (Call_CloseWindow windowName name r)
           (trace_of (runCleanup ["gone"] (repo_at "/src/myrepo"))))
  /\ error_of (runCleanup ["gone"] (repo_at "/src/myrepo")) = None.
Proof.
  assert (H : In (Call_Stat "/src/myrepo/.koh/gone"
                    (Some (PathErrNotExist
                             "stat /src/myrepo/.koh/gone: no such file or directory")))
                 (trace_of (runCleanup ["gone"] (repo_at "/src/myrepo"))))
    by in_run.
  destruct (absent_worktree_not_fatal _ _ _ _ H eq_refl)
    as (Hgit & _ & _ & Hwin & Hdone).
  split; [exact H|]. split; [reflexivity|]. split; [exact Hgit|]. split.
  - apply Hwin. in_run.
  - apply Hdone; intros; intros K; not_in_run K.
Defined.

Lemma window_name_format_witness :
  In (Call_GetRepoName (Err (ErrMsg "could not determine repository name")))
     (trace_of (runCleanup ["feature-x"] (nameless (repo_at "/src/myrepo"))))
  /\ (exists name r,
        In (Call_ValidateWorktreeName name None)
           (trace_of (runCleanup ["feature-x"] (nameless (repo_at "/src/myrepo")))) /\
        In (Call_CloseWindow ("|" ++ name) name r)
           (trace_of (runCleanup ["feature-x"] (nameless (repo_at "/src/myrepo"))))).
Proof.
  assert (H : In (Call_GetRepoName (Err (ErrMsg "could not determine repository name")))
                 (trace_of (runCleanup ["feature-x"]
                              (nameless (repo_at "/src/myrepo")))))
    by in_run.
  split; [exact H|].
  exact (proj2 (window_name_format _ _) _ H).
Defined.

Lemma outside_target_no_chdir_witness :
  In (Call_Rel "/src/myrepo/.koh/feature-x" "/src/myrepo" (Ok "../.."))
     (trace_of (runCleanup ["feature-x"] (repo_at "/src/myrepo")))
  /\ outside_of "/src/myrepo/.koh/feature-x" "/src/myrepo"
  /\ (forall dir r,
        ~ In (Call_Chdir dir r)
             (trace_of (runCleanup ["feature-x"] (repo_at "/src/myrepo")))).
Proof.
  assert (H : In (Call_Rel "/src/myrepo/.koh/feature-x" "/src/myrepo" (Ok "../.."))
                 (trace_of (runCleanup ["feature-x"] (repo_at "/src/myrepo"))))
    by in_run.
  assert (O : outside_of "/src/myrepo/.koh/feature-x" "/src/myrepo").
  { exists ["src"; "myrepo"; ".koh"; "feature-x"], ["src"; "myrepo"].
    repeat split; try reflexivity;
      repeat (apply Forall_cons; [repeat split; discriminate || reflexivity|]);
      try apply Forall_nil.
    intros rest E. discriminate E. }
  split; [exact H|]. split; [exact O|].
  exact (outside_target_no_chdir _ _ _ _ _ H (or_intror O)).
Defined.

(** [os.Stat] is refused on the worktree path and git refuses to remove the
    locked worktree: both removals are attempted all the same. *)
Lemma stat_failure_counts_as_present_witness :
  In (Call_Stat "/src/myrepo/.koh/feature-x"
        (Some (ErrMsg "stat /src/myrepo/.koh/feature-x: permission denied")))
     (trace_of (runCleanup ["feature-x"]
                  (unreadable "/src/myrepo/.koh/feature-x"
                     (locking "/src/myrepo/.koh/feature-x" (repo_at "/src/myrepo")))))
  /\ os_IsNotExist
       (Some (ErrMsg "stat /src/myrepo/.koh/feature-x: permission denied"))
     = false
  /\ (exists ctx gitErr rmErr,
        precedes
          (Call_Stat "/src/myrepo/.koh/feature-x"
             (Some (ErrMsg "stat /src/myrepo/.koh/feature-x: permission denied")))
          (Call_RemoveWorktreeWithContext ctx "/src/myrepo/.koh/feature-x" gitErr)
          (trace_of (runCleanup ["feature-x"]
                       (unreadable "/src/myrepo/.koh/feature-x"
                          (locking "/src/myrepo/.koh/feature-x"
                                   (repo_at "/src/myrepo"))))) /\
        precedes
          (Call_RemoveWorktreeWithContext ctx "/src/myrepo/.koh/feature-x" gitErr)
          (Call_RemoveAll "/src/myrepo/.koh/feature-x" rmErr)
          (trace_of (runCleanup ["feature-x"]
                       (unreadable "/src/myrepo/.koh/feature-x"
                          (locking "/src/myrepo/.koh/feature-x"
                                   (repo_at "/src/myrepo"))))))
  /\ error_of (runCleanup ["feature-x"]
                 (unreadable "/src/myrepo/.koh/feature-x"
                    (locking "/src/myrepo/.koh/feature-x" (repo_at "/src/myrepo"))))
     = None.
Proof.
  assert (H : In (Call_Stat "/src/myrepo/.koh/feature-x"
                    (Some (ErrMsg "stat /src/myrepo/.koh/feature-x: permission denied")))
                 (trace_of (runCleanup ["feature-x"]
                              (unreadable "/src/myrepo/.koh/feature-x"
                                 (locking "/src/myrepo/.koh/feature-x"
                                          (repo_at "/src/myrepo"))))))
    by in_run.
  assert (G1 : forall e,
             ~ In (Call_Getwd (Err e))
                  (trace_of (runCleanup ["feature-x"]
                               (unreadable "/src/myrepo/.koh/feature-x"
                                  (locking "/src/myrepo/.koh/feature-x"
                                           (repo_at "/src/myrepo"))))))
    by (intros e K; not_in_run K).
  assert (G2 : forall p e,
             ~ In (Call_Abs p (Err e))
                  (trace_of (runCleanup ["feature-x"]
                               (unreadable "/src/myrepo/.koh/feature-x"
                                  (locking "/src/myrepo/.koh/feature-x"
                                           (repo_at "/src/myrepo"))))))
    by (intros p e K; not_in_run K).
  assert (G3 : forall d e,
             ~ In (Call_Chdir d (Some e))
                  (trace_of (runCleanup ["feature-x"]
                               (unreadable "/src/myrepo/.koh/feature-x"
                                  (locking "/src/myrepo/.koh/feature-x"
                                           (repo_at "/src/myrepo"))))))
    by (intros d e K; not_in_run K).
  destruct (stat_failure_counts_as_present _ _ _ _ H eq_refl G1 G2 G3)
    as (Hboth & _ & Hnil).
  split; [exact H|]. split; [reflexivity|]. split; [exact Hboth|exact Hnil].
Defined.

(** Git refuses to remove the locked worktree; [os.RemoveAll] is called
    after it all the same. *)
Lemma residual_removal_follows_probe_witness :
  enters_teardown
    (trace_of (runCleanup ["feature-x"]
                 (locking "/src/myrepo/.koh/feature-x" (repo_at "/src/myrepo"))))
  /\ In (Call_Stat "/src/myrepo/.koh/feature-x" None)
        (trace_of (runCleanup ["feature-x"]
                     (locking "/src/myrepo/.koh/feature-x" (repo_at "/src/myrepo"))))
  /\ In (Call_RemoveWorktreeWithContext 0 "/src/myrepo/.koh/feature-x"
           (Some (ErrMsg "cannot remove a locked working tree: /src/myrepo/.koh/feature-x")))
        (trace_of (runCleanup ["feature-x"]
                     (locking "/src/myrepo/.koh/feature-x" (repo_at "/src/myrepo"))))
  /\ (exists rmErr,
        precedes
          (Call_RemoveWorktreeWithContext 0 "/src/myrepo/.koh/feature-x"
             (Some (ErrMsg "cannot remove a locked working tree: /src/myrepo/.koh/feature-x")))
          (Call_RemoveAll "/src/myrepo/.koh/feature-x" rmErr)
          (trace_of (runCleanup ["feature-x"]
                       (locking "/src/myrepo/.koh/feature-x"
                                (repo_at "/src/myrepo"))))).
Proof.
  assert (T : enters_teardown
                (trace_of (runCleanup ["feature-x"]
                             (locking "/src/myrepo/.koh/feature-x"
                                      (repo_at "/src/myrepo"))))).
  { split.
    - exists "/src/myrepo/.koh/feature-x", "/src/myrepo", (Ok "../.."). in_run.
    - intros dir err K. not_in_run K. }
  assert (H : In (Call_Stat "/src/myrepo/.koh/feature-x" None)
                 (trace_of (runCleanup ["feature-x"]
                              (locking "/src/myrepo/.koh/feature-x"
                                       (repo_at "/src/myrepo")))))
    by in_run.
  assert (G : In (Call_RemoveWorktreeWithContext 0 "/src/myrepo/.koh/feature-x"
                    (Some (ErrMsg "cannot remove a locked working tree: /src/myrepo/.koh/feature-x")))
                 (trace_of (runCleanup ["feature-x"]
                              (locking "/src/myrepo/.koh/feature-x"
                                       (repo_at "/src/myrepo")))))
    by in_run.
  destruct (residual_removal_follows_probe _ _ _ _ T H) as (_ & _ & Hgit & _).
  split; [exact T|]. split; [exact H|]. split; [exact G|].
  exact (proj2 (proj2 (Hgit _ _ _ G))).
Defined.

(** A directory of the worktree whose name does not begin with two dots is
    recognised: the removal calls wait for the change of directory. *)
Lemma inside_target_chdir_first_witness :
  In (Call_Rel "/src/myrepo/.koh/feature-x" "/src/myrepo/.koh/feature-x/cmd"
               (Ok "cmd"))
     (trace_of (runCleanup [] (repo_at "/src/myrepo/.koh/feature-x/cmd")))
  /\ plainly_under "/src/myrepo/.koh/feature-x" "/src/myrepo/.koh/feature-x/cmd"
  /\ (forall pre ev post,
        trace_of (runCleanup [] (repo_at "/src/myrepo/.koh/feature-x/cmd"))
        = (pre ++ ev :: post)%list ->
        is_removal ev = true ->
        exists mainRepoRoot,
          In (Call_GetMainRepoRoot (Ok mainRepoRoot))
             (trace_of (runCleanup [] (repo_at "/src/myrepo/.koh/feature-x/cmd"))) /\
          In (Call_Chdir mainRepoRoot None) pre).
Proof.
  assert (H : In (Call_Rel "/src/myrepo/.koh/feature-x"
                           "/src/myrepo/.koh/feature-x/cmd" (Ok "cmd"))
                 (trace_of (runCleanup [] (repo_at "/src/myrepo/.koh/feature-x/cmd"))))
    by in_run.
  assert (U : plainly_under "/src/myrepo/.koh/feature-x"
                           "/src/myrepo/.koh/feature-x/cmd").
  { exists ["src"; "myrepo"; ".koh"; "feature-x"], ["cmd"].
    repeat split; try reflexivity;
      repeat (apply Forall_cons; [repeat split; discriminate || reflexivity|]);
      apply Forall_nil. }
  split; [exact H|]. split; [exact U|].
  exact (inside_target_chdir_first _ _ _ _ _ H (or_intror U)).
Defined.

End Runs_of_the_scenario.
(** ** Scripted runs *)

Section Runs_as_scripted.

Import Scripted.

(** Writes out the trace of the concrete run in the goal. *)
Ltac show_run :=
  match goal with
  | |- context [trace_of ?run] =>
      let t := eval vm_compute in (trace_of run) in
      change (trace_of run) with t
  end.

Ltac refute_in K :=
  vm_compute in K;
  repeat (destruct K as [K|K]; [discriminate K|]); contradiction.

Ltac feature_x_elements :=
  repeat (apply Forall_cons; [repeat split; discriminate || reflexivity|]);
  apply Forall_nil.

Lemma line_109_decides_witness :
  Forall plain ["src"; "myrepo"; ".koh"; "feature-x"]
  /\ Forall plain ["src"; "myrepo"; ".koh"; "feature-x"; "cmd"]
  /\ isInTargetWorktree
       (filepath.Rel (rooted ["src"; "myrepo"; ".koh"; "feature-x"])
                     (rooted ["src"; "myrepo"; ".koh"; "feature-x"; "cmd"]))
     = true.
Proof.
  assert (T : Forall plain ["src"; "myrepo"; ".koh"; "feature-x"])
    by feature_x_elements.
  assert (U : Forall plain ["src"; "myrepo"; ".koh"; "feature-x"; "cmd"])
    by feature_x_elements.
  split; [exact T|]. split; [exact U|].
  apply (proj2 (TargetPaths.line_109_decides _ _ T U)).
  exists ["cmd"]. split; reflexivity.
Defined.

(** Every step of the teardown fails: four warnings, and the run completes. *)
Lemma teardown_completes_witness :
  enters_teardown (trace_of (runCleanup ["feature-x"] every_step_fails))
  /\ In (Call_RemoveWorktreeWithContext 1 "/src/myrepo/.koh/feature-x"
           (Some (ErrMsg "cannot remove a locked working tree")))
        (trace_of (runCleanup ["feature-x"] every_step_fails))
  /\ In (Call_RemoveAll "/src/myrepo/.koh/feature-x"
           (Some (ErrMsg "unlinkat /src/myrepo/.koh/feature-x: permission denied")))
        (trace_of (runCleanup ["feature-x"] every_step_fails))
  /\ In (Call_GetRepoName (Err (ErrMsg "exit status 128")))
        (trace_of (runCleanup ["feature-x"] every_step_fails))
  /\ In (Call_CloseWindow "|feature-x" "feature-x" (Some (ErrMsg "window not found")))
        (trace_of (runCleanup ["feature-x"] every_step_fails))
  /\ error_of (runCleanup ["feature-x"] every_step_fails) = None
  /\ (exists pre ctx,
        trace_of (runCleanup ["feature-x"] every_step_fails)
        = (pre ++ [Stdout ("Cleanup complete!" ++ nl); Call_cleanup ctx])%list)
  /\ next_to
       (Call_RemoveAll "/src/myrepo/.koh/feature-x"
          (Some (ErrMsg "unlinkat /src/myrepo/.koh/feature-x: permission denied")))
       (Stdout ("Warning: Failed to remove worktree directory: "
                ++ "unlinkat /src/myrepo/.koh/feature-x: permission denied" ++ nl))
       (trace_of (runCleanup ["feature-x"] every_step_fails))
  /\ (exists inTmux,
        precedes
          (Call_RemoveAll "/src/myrepo/.koh/feature-x"
             (Some (ErrMsg "unlinkat /src/myrepo/.koh/feature-x: permission denied")))
          (Call_IsInTmux inTmux)
          (trace_of (runCleanup ["feature-x"] every_step_fails))).
Proof.
  assert (H : enters_teardown (trace_of (runCleanup ["feature-x"] every_step_fails))).
  { split.
    - exists "/src/myrepo/.koh/feature-x", "/src/myrepo", (Ok "../..").
      show_run. find_event.
    - intros dir err K. refute_in K. }
  assert (K1 : In (Call_RemoveWorktreeWithContext 1 "/src/myrepo/.koh/feature-x"
                     (Some (ErrMsg "cannot remove a locked working tree")))
                  (trace_of (runCleanup ["feature-x"] every_step_fails)))
    by (show_run; find_event).
  assert (K2 : In (Call_RemoveAll "/src/myrepo/.koh/feature-x"
                     (Some (ErrMsg "unlinkat /src/myrepo/.koh/feature-x: permission denied")))
                  (trace_of (runCleanup ["feature-x"] every_step_fails)))
    by (show_run; find_event).
  assert (K3 : In (Call_GetRepoName (Err (ErrMsg "exit status 128")))
                  (trace_of (runCleanup ["feature-x"] every_step_fails)))
    by (show_run; find_event).
  assert (K4 : In (Call_CloseWindow "|feature-x" "feature-x"
                     (Some (ErrMsg "window not found")))
                  (trace_of (runCleanup ["feature-x"] every_step_fails)))
    by (show_run; find_event).
  destruct (teardown_completes _ _ H) as (E & _ & Hend & _ & Hrm & _ & _).
  destruct (Hrm _ _ K2) as [Hwarn Hon].
  split; [exact H|]. split; [exact K1|]. split; [exact K2|]. split; [exact K3|].
  split; [exact K4|]. split; [exact E|]. split; [exact Hend|].
  split; [exact Hwarn|exact Hon].
Defined.

(** The main repository root cannot be entered: the run returns with the
    context released last and nothing removed. *)
Lemma release_is_last_witness :
  (In (Call_SetupCancellableContext 1) (trace_of (runCleanup [] no_chdir))
   \/ In (Call_cleanup 1) (trace_of (runCleanup [] no_chdir)))
  /\ exists pre,
      trace_of (runCleanup [] no_chdir) = (pre ++ [Call_cleanup 1])%list /\
      In (Call_SetupCancellableContext 1) pre /\
      (forall c, ~ In (Call_cleanup c) pre) /\
      (forall c, In (Call_SetupCancellableContext c) pre -> c = 1).
Proof.
  assert (H : In (Call_SetupCancellableContext 1)
                 (trace_of (runCleanup [] no_chdir))
              \/ In (Call_cleanup 1) (trace_of (runCleanup [] no_chdir))).
  { left. show_run. find_event. }
  split; [exact H|]. exact (release_is_last _ _ _ H).
Defined.

Lemma error_means_nothing_removed_witness :
  error_of (runCleanup [] no_chdir)
  = Some (ErrWrap "failed to change to parent directory: "
                  (ErrMsg "chdir /src/myrepo: permission denied"))
  /\ (forall ev, In ev (trace_of (runCleanup [] no_chdir)) -> is_removal ev = false)
  /\ (forall windowName name r,
        ~ In (Call_CloseWindow windowName name r)
             (trace_of (runCleanup [] no_chdir))).
Proof.
  assert (E : error_of (runCleanup [] no_chdir)
              = Some (ErrWrap "failed to change to parent directory: "
                              (ErrMsg "chdir /src/myrepo: permission denied")))
    by (vm_compute; reflexivity).
  split; [exact E|]. exact (error_means_nothing_removed _ _ _ E).
Defined.

Lemma one_target_path_witness :
  In (Call_RemoveAll "/src/myrepo/.koh/feature-x" None)
     (trace_of (runCleanup ["feature-x"] all_well))
  /\ target_of (Call_RemoveAll "/src/myrepo/.koh/feature-x" None)
     = Some "/src/myrepo/.koh/feature-x"
  /\ (forall ev' path',
        In ev' (trace_of (runCleanup ["feature-x"] all_well)) ->
        target_of ev' = Some path' -> path' = "/src/myrepo/.koh/feature-x").
Proof.
  assert (H : In (Call_RemoveAll "/src/myrepo/.koh/feature-x" None)
                 (trace_of (runCleanup ["feature-x"] all_well)))
    by (show_run; find_event).
  split; [exact H|]. split; [reflexivity|].
  destruct (one_target_path _ _ _ _ H eq_refl)
    as (root & name & _ & _ & _ & _ & Hone & _).
  exact Hone.
Defined.

Lemma target_is_child_of_koh_witness :
  Forall plain ["src"; "myrepo"]
  /\ plain "feature-x"
  /\ In (Call_GetMainRepoRoot (Ok (rooted ["src"; "myrepo"])))
        (trace_of (runCleanup ["feature-x"] all_well))
  /\ In (Call_ValidateWorktreeName "feature-x" None)
        (trace_of (runCleanup ["feature-x"] all_well))
  /\ In (Call_Stat "/src/myrepo/.koh/feature-x" None)
        (trace_of (runCleanup ["feature-x"] all_well))
  /\ "/src/myrepo/.koh/feature-x" = rooted (["src"; "myrepo"] ++ [".koh"; "feature-x"]).
Proof.
  assert (R : Forall plain ["src"; "myrepo"]) by feature_x_elements.
  assert (N : plain "feature-x") by (repeat split; discriminate).
  assert (H1 : In (Call_GetMainRepoRoot (Ok (rooted ["src"; "myrepo"])))
                  (trace_of (runCleanup ["feature-x"] all_well)))
    by (show_run; find_event).
  assert (H2 : In (Call_ValidateWorktreeName "feature-x" None)
                  (trace_of (runCleanup ["feature-x"] all_well)))
    by (show_run; find_event).
  assert (H3 : In (Call_Stat "/src/myrepo/.koh/feature-x" None)
                  (trace_of (runCleanup ["feature-x"] all_well)))
    by (show_run; find_event).
  split; [exact R|]. split; [exact N|]. split; [exact H1|].
  split; [exact H2|]. split; [exact H3|].
  exact (target_is_child_of_koh _ _ _ _ _ _ R N H1 H2 H3 eq_refl).
Defined.

Lemma detected_worktree_is_cleaned_witness :
  In (Call_GetCurrentWorktreePath (Ok "/src/myrepo/.koh/feature-x"))
     (trace_of (runCleanup [] all_well))
  /\ (exists r,
        next_to (Stdout ("Detected current worktree: "
                         ++ filepath.Base "/src/myrepo/.koh/feature-x" ++ nl))
                (Call_ValidateWorktreeName
                   (filepath.Base "/src/myrepo/.koh/feature-x") r)
                (trace_of (runCleanup [] all_well)))
  /\ (forall ev path,
        In ev (trace_of (runCleanup [] all_well)) ->
        target_of ev = Some path ->
        path = "/src/myrepo/.koh/feature-x").
Proof.
  assert (H : In (Call_GetCurrentWorktreePath (Ok "/src/myrepo/.koh/feature-x"))
                 (trace_of (runCleanup [] all_well)))
    by (show_run; find_event).
  destruct (detected_worktree_is_cleaned _ _ _ H) as (_ & _ & Hval & Hsame).
  split; [exact H|]. split; [exact Hval|].
  intros ev path K T.
  apply (Hsame ["src"; "myrepo"] "feature-x" ev path);
    try assumption; try reflexivity.
  - feature_x_elements.
  - repeat split; discriminate.
  - show_run. find_event.
Defined.

Lemma no_session_no_window_calls_witness :
  In (Call_IsInTmux false) (trace_of (runCleanup ["feature-x"] no_session))
  /\ (forall r, ~ In (Call_GetRepoName r)
                     (trace_of (runCleanup ["feature-x"] no_session)))
  /\ error_of (runCleanup ["feature-x"] no_session) = None.
Proof.
  assert (H : In (Call_IsInTmux false)
                 (trace_of (runCleanup ["feature-x"] no_session)))
    by (show_run; find_event).
  destruct (no_session_no_window_calls _ _ H) as (Hname & _ & _ & _ & Hnil).
  split; [exact H|]. split; [exact Hname|exact Hnil].
Defined.

(** The change of directory comes before the removal of the directory. *)
Lemma calls_in_text_order_witness :
  precedes (Call_Chdir "/src/myrepo" None)
           (Call_RemoveAll "/src/myrepo/.koh/feature-x" None)
           (trace_of (runCleanup ["feature-x"] all_well))
  /\ step (Call_Chdir "/src/myrepo" None) <> 0
  /\ step (Call_RemoveAll "/src/myrepo/.koh/feature-x" None) <> 0
  /\ (step (Call_Chdir "/src/myrepo" None)
      < step (Call_RemoveAll "/src/myrepo/.koh/feature-x" None)
      \/ (step (Call_Chdir "/src/myrepo" None) = step_of_Abs /\
          step (Call_RemoveAll "/src/myrepo/.koh/feature-x" None) = step_of_Abs)).
Proof.
  assert (H : precedes (Call_Chdir "/src/myrepo" None)
                       (Call_RemoveAll "/src/myrepo/.koh/feature-x" None)
                       (trace_of (runCleanup ["feature-x"] all_well)))
    by (show_run; find_before).
  assert (H1 : step (Call_Chdir "/src/myrepo" None) <> 0) by discriminate.
  assert (H2 : step (Call_RemoveAll "/src/myrepo/.koh/feature-x" None) <> 0)
    by discriminate.
  split; [exact H|]. split; [exact H1|]. split; [exact H2|].
  exact (calls_in_text_order _ _ _ _ H H1 H2).
Defined.

(** The two calls of [filepath.Abs], one after the other. *)
Lemma no_call_twice_witness :
  trace_of (runCleanup ["feature-x"] all_well)
  = (firstn 6 (trace_of (runCleanup ["feature-x"] all_well))
     ++ Call_Abs "/src/myrepo/.koh/feature-x" (Ok "/src/myrepo/.koh/feature-x")
     :: []
     ++ Call_Abs "/src/myrepo/.koh/feature-x" (Ok "/src/myrepo/.koh/feature-x")
     :: skipn 8 (trace_of (runCleanup ["feature-x"] all_well)))%list
  /\ (step (Call_Abs "/src/myrepo/.koh/feature-x" (Ok "/src/myrepo/.koh/feature-x")) = 0
      \/ step (Call_Abs "/src/myrepo/.koh/feature-x" (Ok "/src/myrepo/.koh/feature-x"))
         = step_of_Abs).
Proof.
  assert (E : trace_of (runCleanup ["feature-x"] all_well)
              = (firstn 6 (trace_of (runCleanup ["feature-x"] all_well))
                 ++ Call_Abs "/src/myrepo/.koh/feature-x"
                             (Ok "/src/myrepo/.koh/feature-x")
                 :: []
                 ++ Call_Abs "/src/myrepo/.koh/feature-x"
                             (Ok "/src/myrepo/.koh/feature-x")
                 :: skipn 8 (trace_of (runCleanup ["feature-x"] all_well)))%list)
    by (vm_compute; reflexivity).
  split; [exact E|].
  exact (no_call_twice _ _ _ _ _ _ _ E eq_refl).
Defined.

Lemma worktree_path_failure_stops_witness :
  In (Call_GetCurrentWorktreePath (Err (ErrMsg "exit status 128")))
     (trace_of (runCleanup [] no_worktree_path))
  /\ error_of (runCleanup [] no_worktree_path)
     = Some (ErrWrap "failed to extract worktree name: "
               (ErrWrap "failed to get current worktree path: "
                        (ErrMsg "exit status 128")))
  /\ trace_of (runCleanup [] no_worktree_path)
     = [Call_IsInWorktree true;
        Call_GetCurrentWorktreePath (Err (ErrMsg "exit status 128"))].
Proof.
  assert (H : In (Call_GetCurrentWorktreePath (Err (ErrMsg "exit status 128")))
                 (trace_of (runCleanup [] no_worktree_path)))
    by (show_run; find_event).
  destruct (worktree_path_failure_stops _ _ _ H) as (_ & E & T).
  split; [exact H|]. split; [exact E|exact T].
Defined.

(** The errors of the scripted runs, read both ways. *)
Lemma returned_errors_wrap_their_cause_witness :
  early_return (trace_of (runCleanup [] no_chdir))
               (ErrWrap "failed to change to parent directory: "
                        (ErrMsg "chdir /src/myrepo: permission denied"))
  /\ error_of (runCleanup [] no_chdir)
     = Some (ErrWrap "failed to change to parent directory: "
                     (ErrMsg "chdir /src/myrepo: permission denied")).
Proof.
  assert (R : early_return (trace_of (runCleanup [] no_chdir))
                (ErrWrap "failed to change to parent directory: "
                         (ErrMsg "chdir /src/myrepo: permission denied"))).
  { apply (no_change_of_directory _ "/src/myrepo"). show_run. find_event. }
  split; [exact R|].
  exact (proj2 (returned_errors_wrap_their_cause _ _ _) R).
Defined.

End Runs_as_scripted.
